(** * Lucid contact-form mail relay: validation, sanitisation and sending

    A shallow embedding of the two [POST /send-email] handlers of the
    repository:

    - [Basic]  embeds [src/index.js] (four required fields, one message);
    - [Strict] embeds [src/unnamed/part_000] (five required fields, a type
      check, an admin notification and a best-effort user confirmation).

    JavaScript values are embedded as [jsval]; objects are finite maps from
    property names to values.  A JavaScript string is embedded as a Rocq
    [string], each [ascii] standing for one UTF-16 code unit below 256.
    JSON numbers are embedded as integers.  The handler runs in a small
    monad [M] that threads the list of messages handed to the mail transport
    and may complete abruptly with a thrown error.

    The libraries the handlers call ([path], [ejs], [nodemailer], [Date])
    and the process environment are parameters, gathered in
    [Collaborators]: the template renderer and the transport may each
    return or throw, and the transport may answer differently from one
    attempt to the next.  The middleware in front of the handlers (CORS,
    security headers, body parsing, rate limiting), logging, and the
    [/health] route are outside the embedding, as is
    [emailTemplates.inquiryNotification], which no handler calls. *)

From Stdlib Require Import ZArith String Ascii List Bool Lia DecimalString.
From stdpp Require Import gmap strings.

Local Set Warnings "-register-all".
Local Open Scope string_scope.

(** ** JavaScript values *)

Module JS.

Inductive jsval :=
| JUndefined
| JNull
| JBool (b : bool)
| JNum (z : Z)
| JStr (s : string)
| JArr (items : list jsval)
| JObj (props : gmap string jsval).

(** Thrown values: [Error] and [TypeError] objects with their [message]. *)
Inductive exn :=
| Error (msg : string)
| TypeError (msg : string).

Definition message (e : exn) : string :=
  match e with Error m => m | TypeError m => m end.

(** The result of evaluating an expression: a value or a thrown error. *)
Inductive completion (A : Type) :=
| Normal (a : A)
| Throw (e : exn).
Arguments Normal {A} a.
Arguments Throw {A} e.

(** An object literal [{ k1: v1, ..., kn: vn }]. *)
Definition obj (l : list (string * jsval)) : jsval := JObj (list_to_map l).

(** Property read [v.k] on a value that is neither [undefined] nor [null];
    the properties read here are not defined on the prototypes of arrays
    and primitives. *)
Definition get (v : jsval) (k : string) : jsval :=
  match v with
  | JObj props => default JUndefined (props !! k)
  | _ => JUndefined
  end.

(** [!!v], the truthiness of a value. *)
Definition ToBoolean (v : jsval) : bool :=
  match v with
  | JUndefined | JNull => false
  | JBool b => b
  | JNum z => negb (z =? 0)%Z
  | JStr s => negb (s =? "")
  | JArr _ | JObj _ => true
  end.

Definition typeof (v : jsval) : string :=
  match v with
  | JUndefined => "undefined"
  | JNull => "object"
  | JBool _ => "boolean"
  | JNum _ => "number"
  | JStr _ => "string"
  | JArr _ | JObj _ => "object"
  end.

(** [a || b] *)
Definition or (a b : jsval) : jsval := if ToBoolean a then a else b.

(** [a === b] on primitives.  Two objects or arrays are equal only when
    they are the same reference; the operands compared by the handlers
    (a body field and an environment value) never alias. *)
Definition strict_eq (a b : jsval) : bool :=
  match a, b with
  | JUndefined, JUndefined => true
  | JNull, JNull => true
  | JBool x, JBool y => Bool.eqb x y
  | JNum x, JNum y => (x =? y)%Z
  | JStr x, JStr y => (x =? y)
  | _, _ => false
  end.

(** [String(z)] for an integer: its decimal digits (the notation of
    integers below 10^21). *)
Definition number_to_string (z : Z) : string :=
  NilZero.string_of_int (Z.to_int z).

(** [String(v)], as applied by template literals and by [RegExp.test].
    An array is joined with commas, [undefined] and [null] elements giving
    the empty string.  A plain object gives ["[object Object]"] unless it
    has an own data property [toString], which hides the inherited method
    and leaves no way to a primitive. *)
Fixpoint ToString (v : jsval) : completion string :=
  match v with
  | JUndefined => Normal "undefined"
  | JNull => Normal "null"
  | JBool true => Normal "true"
  | JBool false => Normal "false"
  | JNum z => Normal (number_to_string z)
  | JStr s => Normal s
  | JArr items =>
      (fix join (l : list jsval) : completion string :=
         match l with
         | [] => Normal ""
         | x :: rest =>
             let sx := match x with
                       | JUndefined | JNull => Normal ""
                       | _ => ToString x
                       end in
             match sx, rest with
             | Throw e, _ => Throw e
             | Normal s, [] => Normal s
             | Normal s, _ :: _ =>
                 match join rest with
                 | Throw e => Throw e
                 | Normal t => Normal (s +:+ "," +:+ t)
                 end
             end
         end) items
  | JObj props =>
      match props !! "toString" with
      | Some _ => Throw (TypeError "Cannot convert object to primitive value")
      | None => Normal "[object Object]"
      end
  end.

(** [v.substring(0, n)]: the first [n] code units of a string; any other
    value has no callable [substring]. *)
Definition substring (v : jsval) (n : nat) : completion string :=
  match v with
  | JStr s => Normal (String.substring 0 n s)
  | JUndefined | JNull =>
      Throw (TypeError "Cannot read properties of undefined (reading 'substring')")
  | _ => Throw (TypeError "substring is not a function")
  end.

(** [s.split(sep)] for a one-character separator: the pieces between
    the separators, in order.  A string without separator, the empty
    string included, gives one piece. *)
Fixpoint split (sep : ascii) (s : string) : list string :=
  match s with
  | EmptyString => [EmptyString]
  | String c s' =>
      if Ascii.eqb c sep
      then EmptyString :: split sep s'
      else match split sep s' with
           | piece :: rest => String c piece :: rest
           | [] => [String c EmptyString]
           end
  end.

End JS.
Export JS.

(** ** Regular expressions *)

Module Regex.

Inductive regex :=
| Void
| Eps
| Class (p : ascii -> bool)
| Cat (r1 r2 : regex)
| Alt (r1 r2 : regex)
| Star (r : regex).

(** [r+] *)
Definition Plus (r : regex) : regex := Cat r (Star r).

(** A literal character. *)
Definition Chr (c : ascii) : regex := Class (Ascii.eqb c).

Fixpoint nullable (r : regex) : bool :=
  match r with
  | Void => false
  | Eps => true
  | Class _ => false
  | Cat r1 r2 => nullable r1 && nullable r2
  | Alt r1 r2 => nullable r1 || nullable r2
  | Star _ => true
  end.

Fixpoint deriv (c : ascii) (r : regex) : regex :=
  match r with
  | Void => Void
  | Eps => Void
  | Class p => if p c then Eps else Void
  | Cat r1 r2 =>
      if nullable r1
      then Alt (Cat (deriv c r1) r2) (deriv c r2)
      else Cat (deriv c r1) r2
  | Alt r1 r2 => Alt (deriv c r1) (deriv c r2)
  | Star r1 => Cat (deriv c r1) (Star r1)
  end.

(** Whole-string match, as [/^r$/.test(s)] without flags. *)
Fixpoint test (r : regex) (s : string) : bool :=
  match s with
  | EmptyString => nullable r
  | String c s' => test (deriv c r) s'
  end.

(** The language of a regular expression. *)
Inductive Matches : regex -> string -> Prop :=
| MEps : Matches Eps ""
| MClass p c : p c = true -> Matches (Class p) (String c "")
| MCat r1 r2 s1 s2 :
    Matches r1 s1 -> Matches r2 s2 -> Matches (Cat r1 r2) (s1 +:+ s2)
| MAltL r1 r2 s : Matches r1 s -> Matches (Alt r1 r2) s
| MAltR r1 r2 s : Matches r2 s -> Matches (Alt r1 r2) s
| MStarNil r : Matches (Star r) ""
| MStarCons r s1 s2 :
    Matches r s1 -> Matches (Star r) s2 -> Matches (Star r) (s1 +:+ s2).

(** Every character of [s] satisfies [p]. *)
Fixpoint all_chars (p : ascii -> bool) (s : string) : bool :=
  match s with
  | EmptyString => true
  | String c s' => p c && all_chars p s'
  end.

(** The number of occurrences of [c] in [s]. *)
Fixpoint occurrences (c : ascii) (s : string) : nat :=
  match s with
  | EmptyString => 0
  | String x s' => (if Ascii.eqb x c then 1 else 0) + occurrences c s'
  end.

(** [\s] on code units below 256: tab, line feed, vertical tab, form feed,
    carriage return, space and no-break space. *)
Definition is_space (c : ascii) : bool :=
  let n := nat_of_ascii c in
  ((9 <=? n)%nat && (n <=? 13)%nat) || (n =? 32)%nat || (n =? 160)%nat.

(** [[^\s@]] *)
Definition not_space_at (c : ascii) : bool :=
  negb (is_space c || Ascii.eqb c "@").

(** [/^[^\s@]+@[^\s@]+\.[^\s@]+$/] *)
Definition emailRegex : regex :=
  Cat (Plus (Class not_space_at))
    (Cat (Chr "@")
       (Cat (Plus (Class not_space_at))
          (Cat (Chr ".")
             (Plus (Class not_space_at))))).

End Regex.

(** ** Effects: the mail log and thrown errors *)

Module Effects.

(** A computation reads and extends the list of messages handed to
    [transporter.sendMail] so far, and either returns or throws. *)
Definition M (A : Type) : Type := list jsval -> completion A * list jsval.

Definition ret {A} (a : A) : M A := fun log => (Normal a, log).

Definition bind {A B} (m : M A) (k : A -> M B) : M B :=
  fun log =>
    match m log with
    | (Normal a, log') => k a log'
    | (Throw e, log') => (Throw e, log')
    end.

Definition throw {A} (e : exn) : M A := fun log => (Throw e, log).

(** [try { m } catch (error) { h error }] *)
Definition try_catch {A} (m : M A) (h : exn -> M A) : M A :=
  fun log =>
    match m log with
    | (Normal a, log') => (Normal a, log')
    | (Throw e, log') => h e log'
    end.

(** An effect-free expression that may throw. *)
Definition lift {A} (c : completion A) : M A := fun log => (c, log).

End Effects.
Export Effects.

Declare Scope js_scope.
Delimit Scope js_scope with js.
Notation "x <- m ;; k" := (bind m (fun x => k))
  (at level 100, m at next level, right associativity) : js_scope.
Notation "m ;; k" := (bind m (fun _ => k))
  (at level 100, right associativity) : js_scope.

(** ** The process and its collaborators *)

(** What a handler run depends on besides the request: the environment,
    the directory of the module, and the external libraries [path], [ejs],
    [nodemailer] and [Date]. *)
Record Collaborators := {
  (** [process.env] *)
  env : gmap string string;
  (** [__dirname] *)
  dirname : string;
  (** [path.join] *)
  path_join : list string -> string;
  (** [ejs.renderFile(path, data)]: the rendered HTML, or a thrown error. *)
  ejs_renderFile : string -> jsval -> completion string;
  (** [transporter.sendMail(options)]: delivery or rejection, which may
      depend on the messages attempted before this one. *)
  transporter_sendMail : list jsval -> jsval -> completion unit;
  (** [new Date().getFullYear()] *)
  getFullYear : Z
}.

(** [process.env.NAME] *)
Definition process_env (c : Collaborators) (name : string) : jsval :=
  match env c !! name with
  | Some s => JStr s
  | None => JUndefined
  end.

(** [`${process.env.NAME}`], the value as interpolated into a template
    literal. *)
Definition env_string (c : Collaborators) (name : string) : string :=
  match env c !! name with
  | Some s => s
  | None => "undefined"
  end.

(** An HTTP response: [res.status(status).json(body)]. *)
Record Response := {
  status : Z;
  body : jsval
}.

(** [res.status(code).json(b)] *)
Definition res_status_json (code : Z) (b : jsval) : Response :=
  {| status := code; body := b |}.

(** [res.json(b)], with the default status. *)
Definition res_json (b : jsval) : Response :=
  {| status := 200; body := b |}.

(** A response reporting failure: the given status, [success: false] and
    the given [error] text. *)
Definition is_failure (r : Response) (code : Z) (error : string) : Prop :=
  status r = code /\ get (body r) "success" = JBool false /\
  get (body r) "error" = JStr error.

(** A response reporting success: status 200 and [success: true]. *)
Definition is_success (r : Response) : Prop :=
  status r = 200%Z /\ get (body r) "success" = JBool true.

(** The double quote and the line feed, as one-character strings. *)
Definition dq : string := String "034"%char "".
Definition nl : string := String "010"%char "".

(** ** Code common to both files *)

Section Common.
Context (c : Collaborators).
Local Open Scope js_scope.

(** [await transporter.sendMail(mailOptions)]: the attempt is recorded,
    then the transport delivers or rejects. *)
Definition sendMail (mailOptions : jsval) : M unit :=
  fun log => (transporter_sendMail c log mailOptions, (log ++ [mailOptions])%list).

(** [path.join(__dirname, 'templates', `${templateName}.ejs`)] *)
Definition templatePath (templateName : string) : string :=
  path_join c [dirname c; "templates"; templateName +:+ ".ejs"].

(** [renderTemplate], identical in both files. *)
Definition renderTemplate (templateName : string) (data : jsval) : M string :=
  try_catch
    (lift (ejs_renderFile c (templatePath templateName) data))
    (fun error => throw (Error "Failed to render email template")).

(** [sendEmail], identical in both files. *)
Definition sendEmail (mailOptions : jsval) : M jsval :=
  try_catch
    (sendMail mailOptions ;;
     ret (obj [("success", JBool true)]))
    (fun error =>
       ret (obj [("success", JBool false); ("error", JStr (JS.message error))])).

(** [emailRegex.test(v)] *)
Definition emailRegex_test (v : jsval) : M bool :=
  s <- lift (ToString v) ;;
  ret (Regex.test Regex.emailRegex s).

(** The object destructured from must not be [undefined] or [null]. *)
Definition RequireObjectCoercible (v : jsval) : M unit :=
  match v with
  | JUndefined | JNull =>
      throw (TypeError "Cannot destructure property 'to' of 'req.body' as it is undefined.")
  | _ => ret tt
  end.

(** The priority headers of a notification. *)
Definition priority_headers : jsval :=
  obj [("X-Priority", JStr "1"); ("X-MSMail-Priority", JStr "High")].

End Common.

(** ** The hardened server, [src/unnamed/part_000] *)

Module Strict.
Section Handler.
Context (c : Collaborators).
Local Open Scope js_scope.

Definition requiredEnvVars : list string :=
  ["EMAIL_USERNAME"; "EMAIL_PASSWORD"; "ADMIN_EMAIL"].

(** The start-up loop over [requiredEnvVars]: [false] when the process
    exits with status 1 before serving any request. *)
Definition startup : bool :=
  forallb (fun envVar => ToBoolean (process_env c envVar)) requiredEnvVars.

(** The template literal of [emailTemplates.confirmationEmail]. *)
Definition confirmationHtml (name subject : string) : string :=
  nl +:+
  "    <div style=" +:+ dq +:+ "font-family: Arial, sans-serif; padding: 20px; background-color: #f9f9f9;" +:+ dq +:+ ">" +:+ nl +:+
  "      <div style=" +:+ dq +:+ "max-width: 600px; background: white; padding: 20px; border-radius: 10px; box-shadow: 0 3px 12px rgba(0,0,0,0.1);" +:+ dq +:+ ">" +:+ nl +:+
  "        <h2 style=" +:+ dq +:+ "color: #007BFF; text-align: center;" +:+ dq +:+ ">Thank you, " +:+ name +:+ "!</h2>" +:+ nl +:+
  "        <p>We've received your inquiry about " +:+ dq +:+ subject +:+ dq +:+ " and will respond within 24 hours.</p>" +:+ nl +:+
  "        <p style=" +:+ dq +:+ "margin-top: 20px;" +:+ dq +:+ ">Best regards,<br>Lucid Petro Chemical Team</p>" +:+ nl +:+
  "      </div>" +:+ nl +:+
  "    </div>" +:+ nl +:+
  "  ".

(** [emailTemplates.confirmationEmail], with its default parameters. *)
Definition confirmationEmail (name subject : jsval) : M string :=
  let name := match name with JUndefined => JStr "User" | _ => name end in
  let subject :=
    match subject with JUndefined => JStr "your inquiry" | _ => subject end in
  name <- lift (ToString name) ;;
  subject <- lift (ToString subject) ;;
  ret (confirmationHtml name subject).

(** The data handed to the [welcome] template. *)
Definition adminTemplateData
    (to phone : jsval) (sanitizedSubject sanitizedName sanitizedMessage : string)
    : jsval :=
  obj [("subject", JStr sanitizedSubject);
       ("mobile", phone);
       ("email", to);
       ("name", JStr sanitizedName);
       ("year", JNum (getFullYear c));
       ("companyName", JStr "Lucid Petro Chemical");
       ("message", JStr sanitizedMessage)].

Definition adminText
    (to sanitizedSubject sanitizedName sanitizedMessage : string) : string :=
  "New message from " +:+ sanitizedName +:+ " (" +:+ to +:+ ")" +:+ nl +:+ nl
  +:+ "Subject: " +:+ sanitizedSubject +:+ nl +:+ nl
  +:+ sanitizedMessage +:+ nl +:+ nl
  +:+ "---" +:+ nl +:+ "This message was sent via your website contact form".

Definition adminMailOptions
    (username to sanitizedSubject sanitizedName sanitizedMessage adminHtml : string)
    : jsval :=
  obj [("from", JStr (dq +:+ "Lucid Petro Chemical" +:+ dq +:+ " <" +:+ username +:+ ">"));
       ("to", process_env c "ADMIN_EMAIL");
       ("replyTo", JStr (dq +:+ sanitizedName +:+ dq +:+ " <" +:+ to +:+ ">"));
       ("subject", JStr ("New Inquiry: " +:+ sanitizedSubject));
       ("text", JStr (adminText to sanitizedSubject sanitizedName sanitizedMessage));
       ("html", JStr adminHtml);
       ("headers", priority_headers)].

Definition userMailOptions
    (username : string) (to : jsval) (sanitizedSubject sanitizedName html : string)
    : jsval :=
  obj [("from", JStr (dq +:+ "Lucid Petro Chemical" +:+ dq +:+ " <" +:+ username +:+ ">"));
       ("to", to);
       ("subject", JStr ("We've received your message about " +:+ sanitizedSubject));
       ("html", JStr html);
       ("text", JStr ("Dear " +:+ sanitizedName +:+ "," +:+ nl +:+ nl
                      +:+ "Thank you for your message about " +:+ dq
                      +:+ sanitizedSubject +:+ dq
                      +:+ ". We've received your inquiry and will respond within 24 hours."
                      +:+ nl +:+ nl +:+ "Best regards," +:+ nl
                      +:+ "Lucid Petro Chemical Team"))].

(** [app.post('/send-email', emailLimiter, async (req, res) => ...)], for a
    request let through by the rate limiter. *)
Definition handler (req_body : jsval) : M Response :=
  try_catch
    (RequireObjectCoercible req_body ;;
     let to := get req_body "to" in
     let subject := get req_body "subject" in
     let name := get req_body "name" in
     let message := get req_body "message" in
     let phone := get req_body "phone" in
     if negb (ToBoolean to) || negb (ToBoolean subject) || negb (ToBoolean name)
        || negb (ToBoolean message) || negb (ToBoolean phone)
     then
       ret (res_status_json 400
              (obj [("success", JBool false);
                    ("error", JStr "All fields are required: recipient email, subject, name, and message")]))
     else if negb (typeof to =? "string") || negb (typeof subject =? "string")
             || negb (typeof name =? "string") || negb (typeof message =? "string")
             || negb (typeof phone =? "string")
     then
       ret (res_status_json 400
              (obj [("success", JBool false);
                    ("error", JStr "Invalid input types")]))
     else
       matched <- emailRegex_test to ;;
       if negb matched
       then
         ret (res_status_json 400
                (obj [("success", JBool false);
                      ("error", JStr "Please provide a valid email address")]))
       else
         sanitizedSubject <- lift (substring subject 100) ;;
         sanitizedName <- lift (substring name 50) ;;
         sanitizedMessage <- lift (substring message 2000) ;;
         adminHtml <- renderTemplate c "welcome"
           (adminTemplateData to phone sanitizedSubject sanitizedName sanitizedMessage) ;;
         to_s <- lift (ToString to) ;;
         username <- lift (ToString (process_env c "EMAIL_USERNAME")) ;;
         adminResult <- sendEmail c
           (adminMailOptions username to_s sanitizedSubject sanitizedName
              sanitizedMessage adminHtml) ;;
         if negb (ToBoolean (get adminResult "success"))
         then throw (Error "Failed to send email to admin")
         else
           (if negb (strict_eq to (process_env c "ADMIN_EMAIL"))
            then
              username <- lift (ToString (process_env c "EMAIL_USERNAME")) ;;
              html <- confirmationEmail (JStr sanitizedName) (JStr sanitizedSubject) ;;
              sendEmail c
                (userMailOptions username to sanitizedSubject sanitizedName html) ;;
              ret tt
            else ret tt) ;;
           ret (res_json
                  (obj [("success", JBool true);
                        ("message", JStr "Your message has been sent successfully")])))
    (fun error =>
       ret (res_status_json 500
              (obj [("success", JBool false);
                    ("error", or (JStr (JS.message error))
                                 (JStr "An unexpected error occurred"))]))).

(** The [origin] option given to [cors]:
    [process.env.ALLOWED_ORIGINS?.split(',') || '*']. *)
Definition corsOrigin : jsval :=
  or (match process_env c "ALLOWED_ORIGINS" with
      | JStr s => JArr (map JStr (split "," s))
      | _ => JUndefined
      end)
     (JStr "*").

(** The error-handling middleware [app.use((err, req, res, next) => ...)]:
    the message and the stack of [err] are given out in development mode
    only. *)
Definition errorHandler (err : jsval) : Response :=
  res_status_json 500
    (obj ([("success", JBool false);
           ("error",
            if strict_eq (process_env c "NODE_ENV") (JStr "development")
            then get err "message"
            else JStr "Internal server error")]
          ++ (if strict_eq (process_env c "NODE_ENV") (JStr "development")
              then [("stack", get err "stack")]
              else []))%list).

(** The second line logged once the server listens:
    [`Environment: ${process.env.NODE_ENV || 'development'}`]. *)
Definition environmentLine : completion string :=
  match ToString (or (process_env c "NODE_ENV") (JStr "development")) with
  | Normal mode => Normal ("Environment: " +:+ mode)
  | Throw e => Throw e
  end.

End Handler.

(** *** Vocabulary for the properties of this handler *)

Definition requiredFields : list string :=
  ["to"; "subject"; "name"; "message"; "phone"].

(** The request passes validation: the five fields are non-empty strings
    and [to] has the shape of an address. *)
Definition validated
    (req_body : jsval) (to subject name message phone : string) : Prop :=
  get req_body "to" = JStr to /\ get req_body "subject" = JStr subject /\
  get req_body "name" = JStr name /\ get req_body "message" = JStr message /\
  get req_body "phone" = JStr phone /\
  to <> "" /\ subject <> "" /\ name <> "" /\ message <> "" /\ phone <> "" /\
  Regex.test Regex.emailRegex to = true.

(** The request is accepted: it passes validation and the [welcome]
    template renders to [html], so that messages are composed. *)
Definition accepted
    (c : Collaborators) (req_body : jsval)
    (to subject name message phone html : string) : Prop :=
  validated req_body to subject name message phone /\
  ejs_renderFile c (templatePath c "welcome")
    (adminTemplateData c (JStr to) (JStr phone)
       (String.substring 0 100 subject) (String.substring 0 50 name)
       (String.substring 0 2000 message)) = Normal html.

(** The admin notification composed for an accepted request. *)
Definition adminNotification
    (c : Collaborators) (to subject name message html : string) : jsval :=
  adminMailOptions c (env_string c "EMAIL_USERNAME") to
    (String.substring 0 100 subject) (String.substring 0 50 name)
    (String.substring 0 2000 message) html.

(** The user confirmation composed for an accepted request. *)
Definition userConfirmation
    (c : Collaborators) (to subject name : string) : jsval :=
  userMailOptions (env_string c "EMAIL_USERNAME") (JStr to)
    (String.substring 0 100 subject) (String.substring 0 50 name)
    (confirmationHtml (String.substring 0 50 name)
       (String.substring 0 100 subject)).

End Strict.

(** ** The first server, [src/index.js] *)

Module Basic.
Section Handler.
Context (c : Collaborators).
Local Open Scope js_scope.

(** The data handed to the [welcome] template. *)
Definition templateData
    (sanitizedSubject sanitizedName sanitizedMessage : string) : jsval :=
  obj [("subject", JStr sanitizedSubject);
       ("name", JStr sanitizedName);
       ("year", JNum (getFullYear c));
       ("companyName", JStr "Your Company");
       ("message", JStr sanitizedMessage)].

Definition text
    (to sanitizedSubject sanitizedName sanitizedMessage : string) : string :=
  "New message from " +:+ sanitizedName +:+ " (" +:+ to +:+ ")" +:+ nl +:+ nl
  +:+ "Subject: " +:+ sanitizedSubject +:+ nl +:+ nl
  +:+ sanitizedMessage +:+ nl +:+ nl
  +:+ "---" +:+ nl +:+ "This message was sent via your website contact form".

Definition mailOptions
    (username : string) (to : jsval)
    (to_s sanitizedSubject sanitizedName sanitizedMessage html : string) : jsval :=
  obj [("from", JStr (dq +:+ "Website Contact" +:+ dq +:+ " <" +:+ username +:+ ">"));
       ("to", or (process_env c "ADMIN_EMAIL") to);
       ("replyTo", to);
       ("subject", JStr ("Website Contact: " +:+ sanitizedSubject));
       ("text", JStr (text to_s sanitizedSubject sanitizedName sanitizedMessage));
       ("html", JStr html);
       ("headers", priority_headers)].

(** [app.post('/send-email', async (req, res) => ...)].  Validation and
    sanitisation sit before the [try] block, so an error thrown there
    leaves the handler. *)
Definition handler (req_body : jsval) : M Response :=
  RequireObjectCoercible req_body ;;
  let to := get req_body "to" in
  let subject := get req_body "subject" in
  let name := get req_body "name" in
  let message := get req_body "message" in
  if negb (ToBoolean to) || negb (ToBoolean subject) || negb (ToBoolean name)
     || negb (ToBoolean message)
  then
    ret (res_status_json 400
           (obj [("success", JBool false);
                 ("error", JStr "All fields are required: recipient email, subject, name, and message")]))
  else
    matched <- emailRegex_test to ;;
    if negb matched
    then
      ret (res_status_json 400
             (obj [("success", JBool false);
                   ("error", JStr "Please provide a valid email address")]))
    else
      sanitizedSubject <- lift (substring subject 100) ;;
      sanitizedName <- lift (substring name 50) ;;
      sanitizedMessage <- lift (substring message 2000) ;;
      try_catch
        (html <- renderTemplate c "welcome"
           (templateData sanitizedSubject sanitizedName sanitizedMessage) ;;
         to_s <- lift (ToString to) ;;
         username <- lift (ToString (process_env c "EMAIL_USERNAME")) ;;
         result <- sendEmail c
           (mailOptions username to to_s sanitizedSubject sanitizedName
              sanitizedMessage html) ;;
         if negb (ToBoolean (get result "success"))
         then throw (Error "Failed to send email. Please try again later.")
         else
           ret (res_json
                  (obj [("success", JBool true);
                        ("message", JStr "Your message has been sent successfully")])))
        (fun error =>
           ret (res_status_json 500
                  (obj [("success", JBool false);
                        ("error", or (JStr (JS.message error))
                                     (JStr "An unexpected error occurred"))]))).

(** The error-handling middleware [app.use((err, req, res, next) => ...)]. *)
Definition errorHandler (err : jsval) : Response :=
  res_status_json 500
    (obj [("success", JBool false);
          ("error", JStr "Internal server error")]).

End Handler.

(** *** Vocabulary for the properties of this handler *)

Definition requiredFields : list string :=
  ["to"; "subject"; "name"; "message"].

(** The request passes validation and sanitisation: the four fields are
    truthy, [String(to)] has the shape of an address, and [subject],
    [name] and [message] are strings. *)
Definition validated
    (req_body to : jsval) (to_s subject name message : string) : Prop :=
  get req_body "to" = to /\ get req_body "subject" = JStr subject /\
  get req_body "name" = JStr name /\ get req_body "message" = JStr message /\
  ToBoolean to = true /\ subject <> "" /\ name <> "" /\ message <> "" /\
  ToString to = Normal to_s /\
  Regex.test Regex.emailRegex to_s = true.

(** The request is accepted: it passes validation and the [welcome]
    template renders to [html], so that the message is composed. *)
Definition accepted
    (c : Collaborators) (req_body to : jsval)
    (to_s subject name message html : string) : Prop :=
  validated req_body to to_s subject name message /\
  ejs_renderFile c (templatePath c "welcome")
    (templateData c
       (String.substring 0 100 subject) (String.substring 0 50 name)
       (String.substring 0 2000 message)) = Normal html.

(** The notification composed for an accepted request. *)
Definition notification
    (c : Collaborators) (to : jsval)
    (to_s subject name message html : string) : jsval :=
  mailOptions c (env_string c "EMAIL_USERNAME") to to_s
    (String.substring 0 100 subject) (String.substring 0 50 name)
    (String.substring 0 2000 message) html.

End Basic.

(** ** Example configurations and requests *)

Module Example.

Definition environment : gmap string string :=
  list_to_map [("EMAIL_USERNAME", "mailer@co.com");
               ("EMAIL_PASSWORD", "secret");
               ("ADMIN_EMAIL", "admin@co.com")].

(** Every template renders and every message is delivered. *)
Definition delivering : Collaborators :=
  {| env := environment;
     dirname := "/srv/app";
     path_join := String.concat "/";
     ejs_renderFile := fun _ _ => Normal "<p>rendered</p>";
     transporter_sendMail := fun _ _ => Normal tt;
     getFullYear := 2025 |}.

(** The transport rejects the first message of a request. *)
Definition rejecting_first : Collaborators :=
  {| env := environment;
     dirname := "/srv/app";
     path_join := String.concat "/";
     ejs_renderFile := fun _ _ => Normal "<p>rendered</p>";
     transporter_sendMail := fun log _ =>
       match log with
       | [] => Throw (Error "connect ECONNREFUSED")
       | _ :: _ => Normal tt
       end;
     getFullYear := 2025 |}.

(** The transport delivers the first message and rejects the second. *)
Definition rejecting_second : Collaborators :=
  {| env := environment;
     dirname := "/srv/app";
     path_join := String.concat "/";
     ejs_renderFile := fun _ _ => Normal "<p>rendered</p>";
     transporter_sendMail := fun log _ =>
       match log with
       | [] => Normal tt
       | _ :: _ => Throw (Error "Mailbox unavailable")
       end;
     getFullYear := 2025 |}.

(** The template cannot be rendered. *)
Definition failing_render : Collaborators :=
  {| env := environment;
     dirname := "/srv/app";
     path_join := String.concat "/";
     ejs_renderFile := fun _ _ =>
       Throw (Error "ENOENT: no such file or directory");
     transporter_sendMail := fun _ _ => Normal tt;
     getFullYear := 2025 |}.

(** Two origins are allowed; the mode is not set. *)
Definition two_origins : Collaborators :=
  {| env := list_to_map [("EMAIL_USERNAME", "mailer@co.com");
                         ("EMAIL_PASSWORD", "secret");
                         ("ADMIN_EMAIL", "admin@co.com");
                         ("ALLOWED_ORIGINS", "https://a.example,https://b.example")];
     dirname := "/srv/app";
     path_join := String.concat "/";
     ejs_renderFile := fun _ _ => Normal "<p>rendered</p>";
     transporter_sendMail := fun _ _ => Normal tt;
     getFullYear := 2025 |}.

(** No admin address is configured. *)
Definition without_admin : Collaborators :=
  {| env := list_to_map [("EMAIL_USERNAME", "mailer@co.com");
                         ("EMAIL_PASSWORD", "secret")];
     dirname := "/srv/app";
     path_join := String.concat "/";
     ejs_renderFile := fun _ _ => Normal "<p>rendered</p>";
     transporter_sendMail := fun _ _ => Normal tt;
     getFullYear := 2025 |}.

Definition inquiry : jsval :=
  obj [("to", JStr "a@b.com"); ("subject", JStr "Hi"); ("name", JStr "Sam");
       ("message", JStr "Hello there"); ("phone", JStr "123")].

Definition inquiry_from_admin : jsval :=
  obj [("to", JStr "admin@co.com"); ("subject", JStr "Hi"); ("name", JStr "Sam");
       ("message", JStr "Hello there"); ("phone", JStr "123")].

(** A subject of 120 characters. *)
Definition long_subject : string :=
  String.concat "" (repeat "0123456789" 12).

Definition long_inquiry : jsval :=
  obj [("to", JStr "a@b.com"); ("subject", JStr long_subject);
       ("name", JStr "Sam"); ("message", JStr "Hello there");
       ("phone", JStr "123")].

(** The same inquiry with other characters after the first 100 of the
    subject. *)
Definition long_inquiry_other_tail : jsval :=
  obj [("to", JStr "a@b.com");
       ("subject", JStr (String.substring 0 100 long_subject +:+ "another ending"));
       ("name", JStr "Sam"); ("message", JStr "Hello there");
       ("phone", JStr "123")].

(** [to] is an array holding one address. *)
Definition array_to : jsval :=
  obj [("to", JArr [JStr "a@b.com"]); ("subject", JStr "Hi");
       ("name", JStr "Sam"); ("message", JStr "Hello there");
       ("phone", JStr "123")].

Definition malformed : jsval :=
  obj [("to", JStr "not-an-email"); ("subject", JStr "Hi"); ("name", JStr "Sam");
       ("message", JStr "Hello"); ("phone", JStr "123")].

Definition numeric_subject : jsval :=
  obj [("to", JStr "a@b.com"); ("subject", JNum 5); ("name", JStr "Sam");
       ("message", JStr "Hello"); ("phone", JStr "123")].

Definition malformed_numeric_subject : jsval :=
  obj [("to", JStr "not-an-email"); ("subject", JNum 5); ("name", JStr "Sam");
       ("message", JStr "Hello"); ("phone", JStr "123")].

End Example.

(** * Properties *)

(** ** Strings *)

Section Strings.

Lemma append_nil_l (s : string) : "" +:+ s = s.
Proof. reflexivity. Qed.

Lemma append_cons (x : ascii) (a b : string) :
  String x a +:+ b = String x (a +:+ b).
Proof. reflexivity. Qed.

Lemma append_nil_r (s : string) : s +:+ "" = s.
Proof. induction s as [|x s IH]; [reflexivity|]. rewrite append_cons, IH. reflexivity. Qed.

Lemma append_assoc (a b d : string) : (a +:+ b) +:+ d = a +:+ (b +:+ d).
Proof.
  induction a as [|x a IH]; [reflexivity|].
  rewrite !append_cons, IH. reflexivity.
Qed.

Lemma append_eq_nil (a b : string) : a +:+ b = "" -> a = "" /\ b = "".
Proof. destruct a; [auto | rewrite append_cons; discriminate]. Qed.

Lemma append_eq_cons (a b : string) (x : ascii) (s : string) :
  a +:+ b = String x s ->
  (a = "" /\ b = String x s) \/ (exists a', a = String x a' /\ s = a' +:+ b).
Proof.
  destruct a as [|y a'].
  - left; auto.
  - rewrite append_cons. intros H. right. injection H as -> <-. eauto.
Qed.

End Strings.

(** ** The matcher decides the language of the pattern *)

Section RegexCorrect.
Import Regex.

Lemma nullable_Matches (r : regex) : nullable r = true <-> Matches r "".
Proof.
  induction r as [ | | p | r1 IH1 r2 IH2 | r1 IH1 r2 IH2 | r IH]; simpl.
  - split; [discriminate | inversion 1].
  - split; [constructor | reflexivity].
  - split; [discriminate | inversion 1].
  - rewrite andb_true_iff, IH1, IH2. split.
    + intros [H1 H2]. apply (MCat _ _ "" "" H1 H2).
    + intros H. inversion H as [ | | ? ? s1 s2 H1 H2 E | | | | ]; subst.
      match goal with E : _ +:+ _ = "" |- _ => apply append_eq_nil in E as [-> ->] end.
      auto.
  - rewrite orb_true_iff, IH1, IH2. split.
    + intros [H|H]; [apply MAltL | apply MAltR]; assumption.
    + inversion 1; subst; auto.
  - split; [constructor | reflexivity].
Qed.

(** A non-empty word of [Star r] starts with a non-empty word of [r]. *)
Lemma Matches_Star_cons (r : regex) (x : ascii) (s : string) :
  Matches (Star r) (String x s) ->
  exists s1 s2, s = s1 +:+ s2 /\ Matches r (String x s1) /\ Matches (Star r) s2.
Proof.
  intros H. remember (Star r) as r' eqn:Er. remember (String x s) as w eqn:Ew.
  revert Er Ew. induction H as [ | | | | | | r0 s1 s2 H1 _ H2 IH2]; try discriminate.
  intros Er Ew. injection Er as ->.
  destruct s1 as [|y s1'].
  - apply IH2; [reflexivity | exact Ew].
  - rewrite append_cons in Ew. injection Ew as -> <-. eauto.
Qed.

Lemma deriv_Matches (r : regex) (x : ascii) (s : string) :
  Matches (deriv x r) s <-> Matches r (String x s).
Proof.
  revert s. induction r as [ | | p | r1 IH1 r2 IH2 | r1 IH1 r2 IH2 | r IH]; intros s; simpl.
  - split; inversion 1.
  - split; inversion 1.
  - destruct (p x) eqn:Epx; split; intros H.
    + inversion H; subst. constructor. exact Epx.
    + inversion H; subst. constructor.
    + inversion H.
    + inversion H; subst. congruence.
  - assert (Hcat : Matches (Cat (deriv x r1) r2) s ->
                   Matches (Cat r1 r2) (String x s)).
    { intros H. inversion H as [ | | ? ? s1 s2 H1 H2 | | | | ]; subst.
      rewrite <- append_cons. constructor; [apply IH1|]; assumption. }
    destruct (nullable r1) eqn:En; split; intros H.
    + inversion H as [ | | | ? ? ? H' | ? ? ? H' | | ]; subst.
      * apply Hcat, H'.
      * rewrite <- (append_nil_l (String x s)). constructor.
        -- apply nullable_Matches, En.
        -- apply IH2, H'.
    + inversion H as [ | | ? ? s1 s2 H1 H2 E | | | | ]; subst.
      match goal with E : _ +:+ _ = String _ _ |- _ =>
        apply append_eq_cons in E as [[-> ->] | (a' & -> & ->)] end.
      * apply MAltR, IH2, H2.
      * apply MAltL. constructor; [apply IH1|]; assumption.
    + apply Hcat, H.
    + inversion H as [ | | ? ? s1 s2 H1 H2 E | | | | ]; subst.
      match goal with E : _ +:+ _ = String _ _ |- _ =>
        apply append_eq_cons in E as [[-> ->] | (a' & -> & ->)] end.
      * apply nullable_Matches in H1. congruence.
      * constructor; [apply IH1|]; assumption.
  - split; intros H; inversion H; subst;
      [apply MAltL, IH1 | apply MAltR, IH2 | apply MAltL, IH1 | apply MAltR, IH2];
      assumption.
  - split; intros H.
    + inversion H as [ | | ? ? s1 s2 H1 H2 | | | | ]; subst.
      rewrite <- append_cons. constructor; [apply IH|]; assumption.
    + apply Matches_Star_cons in H as (s1 & s2 & -> & H1 & H2).
      constructor; [apply IH|]; assumption.
Qed.

(** [test] decides the language: the derivative matcher agrees with the
    declarative reading of the pattern. *)
Theorem test_Matches (r : regex) (s : string) :
  test r s = true <-> Matches r s.
Proof.
  revert r. induction s as [|x s IH]; intros r; simpl.
  - apply nullable_Matches.
  - rewrite IH. apply deriv_Matches.
Qed.

End RegexCorrect.

(** ** The shape of an accepted address *)

Section EmailShape.
Import Regex.

Lemma Matches_Class_inv p s :
  Matches (Class p) s <-> exists x, s = String x "" /\ p x = true.
Proof.
  split.
  - inversion 1; subst; eauto.
  - intros (x & -> & H). constructor. exact H.
Qed.

Lemma Matches_Cat_inv r1 r2 s :
  Matches (Cat r1 r2) s <->
  exists s1 s2, s = s1 +:+ s2 /\ Matches r1 s1 /\ Matches r2 s2.
Proof.
  split.
  - inversion 1; subst; eauto.
  - intros (s1 & s2 & -> & H1 & H2). constructor; assumption.
Qed.

Lemma Matches_Star_Class p s :
  Matches (Star (Class p)) s <-> all_chars p s = true.
Proof.
  split.
  - intros H. remember (Star (Class p)) as r eqn:Er. revert Er.
    induction H as [ | | | | | | r0 s1 s2 H1 _ H2 IH2]; try discriminate.
    + reflexivity.
    + intros Er. injection Er as ->. inversion H1; subst.
      rewrite append_cons, append_nil_l. simpl.
      apply andb_true_iff. split; [assumption | apply IH2; reflexivity].
  - induction s as [|x s IH]; simpl; intros H.
    + constructor.
    + apply andb_true_iff in H as [Hx Hs].
      change (String x s) with (String x "" +:+ s).
      constructor; [constructor; exact Hx | apply IH, Hs].
Qed.

Lemma Matches_Plus_Class p s :
  Matches (Plus (Class p)) s <-> s <> "" /\ all_chars p s = true.
Proof.
  unfold Plus. rewrite Matches_Cat_inv. split.
  - intros (s1 & s2 & -> & H1 & H2).
    apply Matches_Class_inv in H1 as (x & -> & Hx).
    apply Matches_Star_Class in H2.
    rewrite append_cons, append_nil_l. split; [discriminate |].
    simpl. rewrite Hx, H2. reflexivity.
  - intros [Hne H]. destruct s as [|x s]; [congruence |].
    simpl in H. apply andb_true_iff in H as [Hx Hs].
    exists (String x ""), s. split; [reflexivity |].
    split; [constructor; exact Hx | apply Matches_Star_Class, Hs].
Qed.

Lemma Matches_Chr_inv x s : Matches (Chr x) s <-> s = String x "".
Proof.
  unfold Chr. rewrite Matches_Class_inv. split.
  - intros (y & -> & H). apply Ascii.eqb_eq in H. subst. reflexivity.
  - intros ->. exists x. split; [reflexivity | apply Ascii.eqb_refl].
Qed.

(** X1 (the address pattern).  The pattern accepts exactly the strings
    [local@domain.tld] whose three parts are non-empty and free of white
    space and of [@]. *)
Theorem emailRegex_shape s :
  test emailRegex s = true <->
  exists loc domain tld,
    s = loc +:+ "@" +:+ domain +:+ "." +:+ tld /\
    (loc <> "" /\ all_chars not_space_at loc = true) /\
    (domain <> "" /\ all_chars not_space_at domain = true) /\
    (tld <> "" /\ all_chars not_space_at tld = true).
Proof.
  rewrite test_Matches. unfold emailRegex.
  split.
  - intros H.
    apply Matches_Cat_inv in H as (loc & s1 & -> & Hloc & H).
    apply Matches_Cat_inv in H as (at_ & s2 & -> & Hat & H).
    apply Matches_Cat_inv in H as (domain & s3 & -> & Hdom & H).
    apply Matches_Cat_inv in H as (dot & tld & -> & Hdot & Htld).
    apply Matches_Chr_inv in Hat as ->. apply Matches_Chr_inv in Hdot as ->.
    apply Matches_Plus_Class in Hloc, Hdom, Htld.
    exists loc, domain, tld. auto.
  - intros (loc & domain & tld & -> & Hloc & Hdom & Htld).
    apply Matches_Plus_Class in Hloc, Hdom, Htld.
    repeat (constructor; try assumption); apply Matches_Chr_inv; reflexivity.
Qed.

End EmailShape.

(** ** Truncation *)

Section Truncation.

Lemma substring_length_le (n : nat) (s : string) :
  String.length (String.substring 0 n s) <= n.
Proof.
  revert s. induction n as [|n IH]; intros [|x s]; simpl; try lia.
  specialize (IH s). lia.
Qed.


(** The truncated value is a prefix of the submitted one. *)
Lemma substring_prefix (n : nat) (s : string) :
  exists rest, s = String.substring 0 n s +:+ rest.
Proof.
  revert s. induction n as [|n IH]; intros [|x s]; simpl.
  - exists "". reflexivity.
  - exists (String x s). reflexivity.
  - exists "". reflexivity.
  - destruct (IH s) as [rest E]. exists rest.
    rewrite append_cons, <- E. reflexivity.
Qed.

(** A value within the bound is kept whole. *)
Lemma substring_short (n : nat) (s : string) :
  String.length s <= n -> String.substring 0 n s = s.
Proof.
  revert s. induction n as [|n IH]; intros [|x s]; simpl; intros H;
    try reflexivity; try lia.
  rewrite IH by lia. reflexivity.
Qed.

(** Truncating twice changes nothing more. *)
Lemma substring_idempotent (n : nat) (s : string) :
  String.substring 0 n (String.substring 0 n s) = String.substring 0 n s.
Proof. apply substring_short, substring_length_le. Qed.

End Truncation.

(** ** JavaScript values *)

Section Values.

Lemma ToString_process_env c name :
  ToString (process_env c name) = Normal (env_string c name).
Proof. unfold process_env, env_string. destruct (env c !! name); reflexivity. Qed.

Lemma ToBoolean_JStr s : s <> "" -> ToBoolean (JStr s) = true.
Proof. intros H. simpl. apply negb_true_iff, String.eqb_neq, H. Qed.

Lemma ToBoolean_JStr_inv s : ToBoolean (JStr s) = true -> s <> "".
Proof. simpl. intros H. apply String.eqb_neq, negb_true_iff, H. Qed.

Lemma typeof_string_inv v :
  (typeof v =? "string") = true -> exists s, v = JStr s.
Proof. destruct v; simpl; try discriminate. eauto. Qed.

Lemma get_is_object v k s : get v k = JStr s -> exists props, v = JObj props.
Proof. destruct v; try discriminate. eauto. Qed.

Lemma get_absent props k : props !! k = None -> get (JObj props) k = JUndefined.
Proof. intros H. simpl. rewrite H. reflexivity. Qed.

Lemma get_present props k v : props !! k = Some v -> get (JObj props) k = v.
Proof. intros H. simpl. rewrite H. reflexivity. Qed.

Lemma get_success_true :
  get (obj [("success", JBool true)]) "success" = JBool true.
Proof. reflexivity. Qed.

Lemma get_success_false e :
  get (obj [("success", JBool false); ("error", e)]) "success" = JBool false.
Proof. reflexivity. Qed.

Lemma get_error e :
  get (obj [("success", JBool false); ("error", e)]) "error" = e.
Proof. reflexivity. Qed.

Lemma is_failure_literal code error :
  is_failure
    (res_status_json code (obj [("success", JBool false); ("error", JStr error)]))
    code error.
Proof. repeat split. Qed.

Lemma is_success_literal :
  is_success
    (res_json (obj [("success", JBool true);
                    ("message", JStr "Your message has been sent successfully")])).
Proof. repeat split. Qed.

(** A start-up that passed leaves a non-empty admin address configured. *)
Lemma startup_admin_configured c :
  Strict.startup c = true ->
  exists admin, env c !! "ADMIN_EMAIL" = Some admin /\ admin <> "".
Proof.
  unfold Strict.startup, Strict.requiredEnvVars. simpl.
  rewrite !andb_true_iff. intros (_ & _ & H & _).
  unfold process_env in H. destruct (env c !! "ADMIN_EMAIL") as [admin|].
  - exists admin. split; [reflexivity | apply ToBoolean_JStr_inv, H].
  - discriminate H.
Qed.

End Values.

(** ** Running [sendEmail] and [renderTemplate] *)

Section Runs.
Context (c : Collaborators).

Lemma sendEmail_run mailOptions log :
  sendEmail c mailOptions log =
    (Normal
       match transporter_sendMail c log mailOptions with
       | Normal _ => obj [("success", JBool true)]
       | Throw e => obj [("success", JBool false); ("error", JStr (message e))]
       end,
     (log ++ [mailOptions])%list).
Proof.
  unfold sendEmail, try_catch, bind, sendMail.
  destruct (transporter_sendMail c log mailOptions); reflexivity.
Qed.

Lemma renderTemplate_run templateName data log :
  renderTemplate c templateName data log =
    (match ejs_renderFile c (templatePath c templateName) data with
     | Normal html => Normal html
     | Throw _ => Throw (Error "Failed to render email template")
     end, log).
Proof.
  unfold renderTemplate, try_catch, lift, throw.
  destruct (ejs_renderFile c _ data); reflexivity.
Qed.

End Runs.

(** ** Running the hardened handler *)

(** One step of a sequence: expose the first computation of a [bind]. *)
Ltac js_step :=
  unfold bind at 1;
  cbn [lift ret throw substring ToString negb RequireObjectCoercible].

Section StrictRuns.
Context (c : Collaborators).

Local Abbreviation guard_required b :=
  (negb (ToBoolean (get b "to")) || negb (ToBoolean (get b "subject"))
   || negb (ToBoolean (get b "name")) || negb (ToBoolean (get b "message"))
   || negb (ToBoolean (get b "phone"))).

Local Abbreviation guard_types b :=
  (negb (typeof (get b "to") =? "string")
   || negb (typeof (get b "subject") =? "string")
   || negb (typeof (get b "name") =? "string")
   || negb (typeof (get b "message") =? "string")
   || negb (typeof (get b "phone") =? "string")).

Lemma Strict_required_guard props log :
  guard_required (JObj props) = true ->
  Strict.handler c (JObj props) log =
    (Normal (res_status_json 400
               (obj [("success", JBool false);
                     ("error", JStr "All fields are required: recipient email, subject, name, and message")])),
     log).
Proof.
  intros H. unfold Strict.handler, try_catch. js_step. rewrite H. reflexivity.
Qed.

Lemma Strict_types_guard props log :
  guard_required (JObj props) = false ->
  guard_types (JObj props) = true ->
  Strict.handler c (JObj props) log =
    (Normal (res_status_json 400
               (obj [("success", JBool false);
                     ("error", JStr "Invalid input types")])),
     log).
Proof.
  intros H1 H2. unfold Strict.handler, try_catch. js_step. rewrite H1, H2.
  reflexivity.
Qed.

Lemma Strict_guards_pass req_body to subject name message phone :
  get req_body "to" = JStr to -> get req_body "subject" = JStr subject ->
  get req_body "name" = JStr name -> get req_body "message" = JStr message ->
  get req_body "phone" = JStr phone ->
  to <> "" -> subject <> "" -> name <> "" -> message <> "" -> phone <> "" ->
  guard_required req_body = false /\ guard_types req_body = false.
Proof.
  intros -> -> -> -> -> ? ? ? ? ?.
  rewrite !ToBoolean_JStr by assumption. split; reflexivity.
Qed.

Lemma Strict_format_guard req_body to subject name message phone log :
  get req_body "to" = JStr to -> get req_body "subject" = JStr subject ->
  get req_body "name" = JStr name -> get req_body "message" = JStr message ->
  get req_body "phone" = JStr phone ->
  to <> "" -> subject <> "" -> name <> "" -> message <> "" -> phone <> "" ->
  Regex.test Regex.emailRegex to = false ->
  Strict.handler c req_body log =
    (Normal (res_status_json 400
               (obj [("success", JBool false);
                     ("error", JStr "Please provide a valid email address")])),
     log).
Proof.
  intros Hto Hsubject Hname Hmessage Hphone ? ? ? ? ? Hre.
  destruct (Strict_guards_pass req_body to subject name message phone)
    as [G1 G2]; try assumption.
  destruct (get_is_object _ _ _ Hto) as [props ->].
  unfold Strict.handler, try_catch. js_step. rewrite G1, G2.
  unfold emailRegex_test. rewrite Hto. do 2 js_step. rewrite Hre. reflexivity.
Qed.

(** A validated request reaches the template renderer. *)
Lemma Strict_handler_render_fails
    req_body to subject name message phone e log :
  Strict.validated req_body to subject name message phone ->
  ejs_renderFile c (templatePath c "welcome")
    (Strict.adminTemplateData c (JStr to) (JStr phone)
       (String.substring 0 100 subject) (String.substring 0 50 name)
       (String.substring 0 2000 message)) = Throw e ->
  Strict.handler c req_body log =
    (Normal (res_status_json 500
               (obj [("success", JBool false);
                     ("error", JStr "Failed to render email template")])),
     log).
Proof.
  intros (Hto & Hsubject & Hname & Hmessage & Hphone
          & Nto & Nsubject & Nname & Nmessage & Nphone & Hre) Hrender.
  destruct (Strict_guards_pass req_body to subject name message phone)
    as [G1 G2]; try assumption.
  destruct (get_is_object _ _ _ Hto) as [props ->].
  unfold Strict.handler, try_catch at 1. js_step. rewrite G1, G2.
  unfold emailRegex_test. rewrite Hto, Hsubject, Hname, Hmessage, Hphone.
  do 2 js_step. rewrite Hre. do 4 js_step.
  rewrite renderTemplate_run, Hrender. reflexivity.
Qed.

(** The run of an accepted request, by the outcome of the admin send. *)
Lemma Strict_handler_accepted
    req_body to subject name message phone html log :
  Strict.accepted c req_body to subject name message phone html ->
  Strict.handler c req_body log =
    let admin := Strict.adminNotification c to subject name message html in
    match transporter_sendMail c log admin with
    | Throw _ =>
        (Normal (res_status_json 500
                   (obj [("success", JBool false);
                         ("error", JStr "Failed to send email to admin")])),
         (log ++ [admin])%list)
    | Normal _ =>
        (Normal (res_json
                   (obj [("success", JBool true);
                         ("message", JStr "Your message has been sent successfully")])),
         if strict_eq (JStr to) (process_env c "ADMIN_EMAIL")
         then (log ++ [admin])%list
         else (log ++ [admin; Strict.userConfirmation c to subject name])%list)
    end.
Proof.
  intros [(Hto & Hsubject & Hname & Hmessage & Hphone
           & Nto & Nsubject & Nname & Nmessage & Nphone & Hre) Hrender].
  destruct (Strict_guards_pass req_body to subject name message phone)
    as [G1 G2]; try assumption.
  destruct (get_is_object _ _ _ Hto) as [props ->].
  unfold Strict.handler, try_catch at 1. js_step. rewrite G1, G2.
  unfold emailRegex_test. rewrite Hto, Hsubject, Hname, Hmessage, Hphone.
  do 2 js_step. rewrite Hre. do 4 js_step.
  rewrite renderTemplate_run, Hrender. do 2 js_step.
  rewrite ToString_process_env.
  fold (Strict.adminNotification c to subject name message html).
  js_step. rewrite sendEmail_run.
  destruct (transporter_sendMail c log _) as [[]|e].
  - rewrite get_success_true. cbn [ToBoolean negb]. js_step.
    destruct (strict_eq (JStr to) (process_env c "ADMIN_EMAIL")); cbn [negb].
    + reflexivity.
    + js_step. unfold Strict.confirmationEmail. do 4 js_step.
      rewrite sendEmail_run, <- app_assoc. reflexivity.
  - rewrite get_success_false. reflexivity.
Qed.

(** The handler answers every request: nothing thrown leaves its [try]. *)
Lemma Strict_handler_responds req_body log :
  exists r log', Strict.handler c req_body log = (Normal r, log').
Proof.
  unfold Strict.handler, try_catch.
  match goal with |- context [let (_, _) := ?m log in _] =>
    destruct (m log) as [[r|e] log'] end; eauto.
Qed.

End StrictRuns.

(** ** What validation lets through *)

Section StrictValidation.
Context (c : Collaborators).

Local Abbreviation guard_required b :=
  (negb (ToBoolean (get b "to")) || negb (ToBoolean (get b "subject"))
   || negb (ToBoolean (get b "name")) || negb (ToBoolean (get b "message"))
   || negb (ToBoolean (get b "phone"))).

Local Abbreviation guard_types b :=
  (negb (typeof (get b "to") =? "string")
   || negb (typeof (get b "subject") =? "string")
   || negb (typeof (get b "name") =? "string")
   || negb (typeof (get b "message") =? "string")
   || negb (typeof (get b "phone") =? "string")).

(** [Strict.validated] is exactly what the three guards let through: a
    request is either answered 400 with nothing sent, or validated. *)
Lemma Strict_rejected_or_validated props log :
  (exists r error,
      Strict.handler c (JObj props) log = (Normal r, log) /\
      is_failure r 400 error) \/
  (exists to subject name message phone,
      Strict.validated (JObj props) to subject name message phone).
Proof.
  destruct (guard_required (JObj props)) eqn:G1.
  { left. eexists _, _. split; [apply Strict_required_guard, G1 |].
    repeat split. }
  destruct (guard_types (JObj props)) eqn:G2.
  { left. eexists _, _. split; [apply Strict_types_guard; assumption |].
    repeat split. }
  rewrite !orb_false_iff, !negb_false_iff in G1, G2.
  destruct G1 as ((((B1 & B2) & B3) & B4) & B5).
  destruct G2 as ((((T1 & T2) & T3) & T4) & T5).
  apply typeof_string_inv in T1 as [to Eto], T2 as [subject Esubject],
    T3 as [name Ename], T4 as [message Emessage], T5 as [phone Ephone].
  rewrite Eto in B1. rewrite Esubject in B2. rewrite Ename in B3.
  rewrite Emessage in B4. rewrite Ephone in B5.
  apply ToBoolean_JStr_inv in B1, B2, B3, B4, B5.
  destruct (Regex.test Regex.emailRegex to) eqn:Hre.
  - right. exists to, subject, name, message, phone. repeat split; assumption.
  - left. eexists _, _. split.
    + apply (Strict_format_guard c _ to subject name message phone); assumption.
    + repeat split.
Qed.

End StrictValidation.

(** ** Running the first handler *)

Section BasicRuns.
Context (c : Collaborators).

Local Abbreviation guard_required b :=
  (negb (ToBoolean (get b "to")) || negb (ToBoolean (get b "subject"))
   || negb (ToBoolean (get b "name")) || negb (ToBoolean (get b "message"))).

Lemma Basic_required_guard props log :
  guard_required (JObj props) = true ->
  Basic.handler c (JObj props) log =
    (Normal (res_status_json 400
               (obj [("success", JBool false);
                     ("error", JStr "All fields are required: recipient email, subject, name, and message")])),
     log).
Proof.
  intros H. unfold Basic.handler. js_step. rewrite H. reflexivity.
Qed.

Lemma Basic_format_guard props to_s log :
  guard_required (JObj props) = false ->
  ToString (get (JObj props) "to") = Normal to_s ->
  Regex.test Regex.emailRegex to_s = false ->
  Basic.handler c (JObj props) log =
    (Normal (res_status_json 400
               (obj [("success", JBool false);
                     ("error", JStr "Please provide a valid email address")])),
     log).
Proof.
  intros G Hs Hre. unfold Basic.handler. js_step. rewrite G.
  unfold emailRegex_test. js_step. rewrite Hs. js_step. rewrite Hre.
  reflexivity.
Qed.

(** Past the two guards, a field without [substring] makes the handler
    throw before its [try] block is entered. *)
Lemma Basic_sanitize_throws props to_s e log :
  guard_required (JObj props) = false ->
  ToString (get (JObj props) "to") = Normal to_s ->
  Regex.test Regex.emailRegex to_s = true ->
  substring (get (JObj props) "subject") 100 = Throw e ->
  Basic.handler c (JObj props) log = (Throw e, log).
Proof.
  intros G Hs Hre Hsub. unfold Basic.handler. js_step. rewrite G.
  unfold emailRegex_test. js_step. rewrite Hs. js_step. rewrite Hre.
  cbn [negb]. unfold bind at 1, lift. rewrite Hsub. reflexivity.
Qed.

Lemma Basic_guards_pass req_body to to_s subject name message :
  Basic.validated req_body to to_s subject name message ->
  guard_required req_body = false.
Proof.
  intros (-> & -> & -> & -> & -> & ? & ? & ? & _).
  rewrite !ToBoolean_JStr by assumption. reflexivity.
Qed.

Lemma Basic_validated_object req_body to to_s subject name message :
  Basic.validated req_body to to_s subject name message ->
  exists props, req_body = JObj props.
Proof. intros (_ & H & _). apply (get_is_object _ _ _ H). Qed.

Lemma Basic_handler_render_fails
    req_body to to_s subject name message e log :
  Basic.validated req_body to to_s subject name message ->
  ejs_renderFile c (templatePath c "welcome")
    (Basic.templateData c
       (String.substring 0 100 subject) (String.substring 0 50 name)
       (String.substring 0 2000 message)) = Throw e ->
  Basic.handler c req_body log =
    (Normal (res_status_json 500
               (obj [("success", JBool false);
                     ("error", JStr "Failed to render email template")])),
     log).
Proof.
  intros Hv Hrender.
  pose proof (Basic_guards_pass _ _ _ _ _ _ Hv) as G.
  destruct (Basic_validated_object _ _ _ _ _ _ Hv) as [props ->].
  destruct Hv as (Hto & Hsubject & Hname & Hmessage & _ & _ & _ & _ & Hs & Hre).
  unfold Basic.handler. js_step. rewrite G.
  unfold emailRegex_test. rewrite Hto, Hsubject, Hname, Hmessage.
  js_step. rewrite Hs. js_step. rewrite Hre. do 3 js_step.
  unfold try_catch at 1. js_step.
  rewrite renderTemplate_run, Hrender. reflexivity.
Qed.

(** The run of an accepted request, by the outcome of the send. *)
Lemma Basic_handler_accepted
    req_body to to_s subject name message html log :
  Basic.accepted c req_body to to_s subject name message html ->
  Basic.handler c req_body log =
    let mail := Basic.notification c to to_s subject name message html in
    (match transporter_sendMail c log mail with
     | Throw _ =>
         Normal (res_status_json 500
                   (obj [("success", JBool false);
                         ("error", JStr "Failed to send email. Please try again later.")]))
     | Normal _ =>
         Normal (res_json
                   (obj [("success", JBool true);
                         ("message", JStr "Your message has been sent successfully")]))
     end,
     (log ++ [mail])%list).
Proof.
  intros [Hv Hrender].
  pose proof (Basic_guards_pass _ _ _ _ _ _ Hv) as G.
  destruct (Basic_validated_object _ _ _ _ _ _ Hv) as [props ->].
  destruct Hv as (Hto & Hsubject & Hname & Hmessage & _ & _ & _ & _ & Hs & Hre).
  unfold Basic.handler. js_step. rewrite G.
  unfold emailRegex_test. rewrite Hto, Hsubject, Hname, Hmessage.
  js_step. rewrite Hs. js_step. rewrite Hre. do 3 js_step.
  unfold try_catch at 1. js_step.
  rewrite renderTemplate_run, Hrender. do 2 js_step.
  rewrite ToString_process_env.
  fold (Basic.notification c to to_s subject name message html).
  js_step. rewrite sendEmail_run.
  destruct (transporter_sendMail c log _) as [[]|e].
  - rewrite get_success_true. reflexivity.
  - rewrite get_success_false. reflexivity.
Qed.

End BasicRuns.

Section BasicValidation.
Context (c : Collaborators).

Local Abbreviation guard_required b :=
  (negb (ToBoolean (get b "to")) || negb (ToBoolean (get b "subject"))
   || negb (ToBoolean (get b "name")) || negb (ToBoolean (get b "message"))).

Lemma substring_normal_inv v n s :
  substring v n = Normal s -> exists w, v = JStr w.
Proof. destruct v; try discriminate. eauto. Qed.

(** [Basic.validated] is exactly what reaches the [try] block of the
    first handler: a request is answered 400 with nothing sent, or makes
    the handler throw with nothing sent, or is validated. *)
Lemma Basic_rejected_thrown_or_validated props log :
  (exists r error,
      Basic.handler c (JObj props) log = (Normal r, log) /\
      is_failure r 400 error) \/
  (exists e, Basic.handler c (JObj props) log = (Throw e, log)) \/
  (exists to to_s subject name message,
      Basic.validated (JObj props) to to_s subject name message).
Proof.
  destruct (guard_required (JObj props)) eqn:G.
  { left. eexists _, _. split; [apply Basic_required_guard, G |].
    apply is_failure_literal. }
  destruct (ToString (get (JObj props) "to")) as [to_s|e] eqn:Hs.
  2:{ right; left. exists e. unfold Basic.handler. js_step. rewrite G.
      unfold emailRegex_test. js_step. rewrite Hs. reflexivity. }
  destruct (Regex.test Regex.emailRegex to_s) eqn:Hre.
  2:{ left. eexists _, _.
      split; [apply (Basic_format_guard c props to_s); assumption |].
      apply is_failure_literal. }
  destruct (substring (get (JObj props) "subject") 100) as [s|e] eqn:E1.
  2:{ right; left. exists e. unfold Basic.handler. js_step. rewrite G.
      unfold emailRegex_test. js_step. rewrite Hs. js_step. rewrite Hre.
      cbn [negb]. unfold bind at 1, lift. rewrite E1. reflexivity. }
  destruct (substring (get (JObj props) "name") 50) as [n|e] eqn:E2.
  2:{ right; left. exists e. unfold Basic.handler. js_step. rewrite G.
      unfold emailRegex_test. js_step. rewrite Hs. js_step. rewrite Hre.
      cbn [negb]. unfold bind at 1, lift. rewrite E1.
      unfold bind at 1. rewrite E2. reflexivity. }
  destruct (substring (get (JObj props) "message") 2000) as [m|e] eqn:E3.
  2:{ right; left. exists e. unfold Basic.handler. js_step. rewrite G.
      unfold emailRegex_test. js_step. rewrite Hs. js_step. rewrite Hre.
      cbn [negb]. unfold bind at 1, lift. rewrite E1.
      unfold bind at 1. rewrite E2. unfold bind at 1. rewrite E3.
      reflexivity. }
  right; right.
  apply substring_normal_inv in E1 as [subject Esubject],
    E2 as [name Ename], E3 as [message Emessage].
  rewrite !orb_false_iff, !negb_false_iff in G.
  destruct G as (((B1 & B2) & B3) & B4).
  rewrite Esubject in B2. rewrite Ename in B3. rewrite Emessage in B4.
  apply ToBoolean_JStr_inv in B2, B3, B4.
  exists (get (JObj props) "to"), to_s, subject, name, message.
  repeat split; assumption.
Qed.

End BasicValidation.

(** ** The send wrapper *)

(** C10. [sendEmail] is total over transport outcomes: for every message
    and every outcome of the transport (delivery or a raised error) it
    returns normally an object with a boolean [success] field, having
    attempted the message once; on a raised error the object is
    [success: false] together with the error's message. *)
Theorem sendEmail_total c mailOptions log :
  exists result,
    sendEmail c mailOptions log = (Normal result, (log ++ [mailOptions])%list) /\
    (exists b, get result "success" = JBool b) /\
    match transporter_sendMail c log mailOptions with
    | Normal _ => result = obj [("success", JBool true)]
    | Throw e =>
        result = obj [("success", JBool false); ("error", JStr (message e))] /\
        get result "success" = JBool false /\
        get result "error" = JStr (message e)
    end.
Proof.
  rewrite sendEmail_run. eexists. split; [reflexivity|].
  destruct (transporter_sendMail c log mailOptions) as [[]|e].
  - split; [exists true; reflexivity | reflexivity].
  - split; [exists false; reflexivity | repeat split].
Qed.

(** ** Failure policy of the hardened handler *)

Lemma strict_eq_env c to name :
  strict_eq (JStr to) (process_env c name) = true <-> env c !! name = Some to.
Proof.
  unfold process_env. destruct (env c !! name) as [s|]; simpl.
  - rewrite String.eqb_eq. split; congruence.
  - split; discriminate.
Qed.

(** C1. For every request that passes validation (and whose template
    renders, so that the admin notification is sent): if the send of the
    admin notification reports failure, the handler responds with status
    500 and [success: false], and the admin notification is the only send
    attempted: no confirmation follows. *)
Theorem admin_send_failure_is_500
    c req_body to subject name message phone html e log :
  Strict.accepted c req_body to subject name message phone html ->
  transporter_sendMail c log
    (Strict.adminNotification c to subject name message html) = Throw e ->
  exists r,
    Strict.handler c req_body log =
      (Normal r,
       (log ++ [Strict.adminNotification c to subject name message html])%list) /\
    is_failure r 500 "Failed to send email to admin".
Proof.
  intros Hacc Hsend. rewrite (Strict_handler_accepted _ _ _ _ _ _ _ _ _ Hacc).
  cbv zeta. rewrite Hsend. eexists. split; [reflexivity|].
  apply is_failure_literal.
Qed.

Lemma admin_send_failure_is_500_witness :
  exists r,
    Strict.handler Example.rejecting_first Example.inquiry [] =
      (Normal r,
       [Strict.adminNotification Example.rejecting_first
          "a@b.com" "Hi" "Sam" "Hello there" "<p>rendered</p>"]) /\
    is_failure r 500 "Failed to send email to admin".
Proof.
  apply (admin_send_failure_is_500 Example.rejecting_first Example.inquiry
           "a@b.com" "Hi" "Sam" "Hello there" "123" "<p>rendered</p>"
           (Error "connect ECONNREFUSED") []).
  - repeat split; try reflexivity; discriminate.
  - reflexivity.
Defined.

(** C2. For every accepted request whose [to] differs from the configured
    admin address: if the admin send succeeds, the handler responds 200
    with [success: true] after attempting the confirmation, whatever the
    transport answers to the confirmation. *)
Theorem confirmation_outcome_is_ignored
    c req_body to subject name message phone html log :
  Strict.accepted c req_body to subject name message phone html ->
  env c !! "ADMIN_EMAIL" <> Some to ->
  transporter_sendMail c log
    (Strict.adminNotification c to subject name message html) = Normal tt ->
  exists r,
    Strict.handler c req_body log =
      (Normal r,
       (log ++ [Strict.adminNotification c to subject name message html;
                Strict.userConfirmation c to subject name])%list) /\
    is_success r.
Proof.
  intros Hacc Hne Hsend.
  rewrite (Strict_handler_accepted _ _ _ _ _ _ _ _ _ Hacc).
  cbv zeta. rewrite Hsend.
  destruct (strict_eq (JStr to) (process_env c "ADMIN_EMAIL")) eqn:E.
  - apply strict_eq_env in E. contradiction.
  - eexists. split; [reflexivity | apply is_success_literal].
Qed.

Lemma confirmation_outcome_is_ignored_witness :
  transporter_sendMail Example.rejecting_second
    [Strict.adminNotification Example.rejecting_second
       "a@b.com" "Hi" "Sam" "Hello there" "<p>rendered</p>"]
    (Strict.userConfirmation Example.rejecting_second "a@b.com" "Hi" "Sam")
  = Throw (Error "Mailbox unavailable") /\
  exists r,
    Strict.handler Example.rejecting_second Example.inquiry [] =
      (Normal r,
       [Strict.adminNotification Example.rejecting_second
          "a@b.com" "Hi" "Sam" "Hello there" "<p>rendered</p>";
        Strict.userConfirmation Example.rejecting_second "a@b.com" "Hi" "Sam"]) /\
    is_success r.
Proof.
  split; [reflexivity|].
  apply (confirmation_outcome_is_ignored Example.rejecting_second
           Example.inquiry "a@b.com" "Hi" "Sam" "Hello there" "123"
           "<p>rendered</p>" []).
  - repeat split; try reflexivity; discriminate.
  - vm_compute. discriminate.
  - reflexivity.
Defined.

(** C7. For every accepted request whose [to] equals the configured admin
    address, exactly one message is handed to the transport, the admin
    notification; no confirmation is attempted. *)
Theorem request_from_admin_sends_once
    c req_body to subject name message phone html log :
  Strict.accepted c req_body to subject name message phone html ->
  env c !! "ADMIN_EMAIL" = Some to ->
  (Strict.handler c req_body log).2 =
    (log ++ [Strict.adminNotification c to subject name message html])%list.
Proof.
  intros Hacc Heq.
  rewrite (Strict_handler_accepted _ _ _ _ _ _ _ _ _ Hacc). cbv zeta.
  apply strict_eq_env in Heq. rewrite Heq.
  destruct (transporter_sendMail c log _); reflexivity.
Qed.

Lemma request_from_admin_sends_once_witness :
  (Strict.handler Example.delivering Example.inquiry_from_admin []).2 =
    [Strict.adminNotification Example.delivering
       "admin@co.com" "Hi" "Sam" "Hello there" "<p>rendered</p>"].
Proof.
  apply (request_from_admin_sends_once Example.delivering
           Example.inquiry_from_admin "admin@co.com" "Hi" "Sam" "Hello there"
           "123" "<p>rendered</p>" []).
  - repeat split; try reflexivity; discriminate.
  - reflexivity.
Defined.

(** ** Validation *)

Lemma missing_is_falsy props field :
  props !! field = None \/ props !! field = Some (JStr "") ->
  ToBoolean (get (JObj props) field) = false.
Proof. intros [H|H]; simpl; rewrite H; reflexivity. Qed.

Lemma non_string_typeof v :
  (forall s, v <> JStr s) -> (typeof v =? "string") = false.
Proof. intros H. destruct v; try reflexivity. destruct (H s). reflexivity. Qed.

Lemma truthy_field_is_object req_body field :
  ToBoolean (get req_body field) = true -> exists props, req_body = JObj props.
Proof. destruct req_body; try discriminate. eauto. Qed.

(** Solve a disjunction of guards one of which is known to hold. *)
Ltac guard_holds H :=
  rewrite H; cbn [negb];
  repeat (rewrite orb_true_r || rewrite orb_true_l); reflexivity.

(** C4. For every request body in which a required field ([to],
    [subject], [name], [message], and [phone] for the hardened handler) is
    absent or the empty string, the handler responds with status 400 and
    [success: false] and hands nothing to the transport. *)
Theorem missing_field_is_rejected c props field log :
  props !! field = None \/ props !! field = Some (JStr "") ->
  (In field Strict.requiredFields ->
   exists r,
     Strict.handler c (JObj props) log = (Normal r, log) /\
     is_failure r 400
       "All fields are required: recipient email, subject, name, and message") /\
  (In field Basic.requiredFields ->
   exists r,
     Basic.handler c (JObj props) log = (Normal r, log) /\
     is_failure r 400
       "All fields are required: recipient email, subject, name, and message").
Proof.
  intros Hmiss. apply missing_is_falsy in Hmiss. split; intros Hin.
  - eexists. split; [apply Strict_required_guard | apply is_failure_literal].
    simpl in Hin.
    destruct Hin as [<-|[<-|[<-|[<-|[<-|[]]]]]]; guard_holds Hmiss.
  - eexists. split; [apply Basic_required_guard | apply is_failure_literal].
    simpl in Hin.
    destruct Hin as [<-|[<-|[<-|[<-|[]]]]]; guard_holds Hmiss.
Qed.

Lemma missing_field_is_rejected_witness :
  (exists r,
     Strict.handler Example.delivering
       (JObj (<["to" := JStr "a@b.com"]> (<["subject" := JStr ""]> ∅))) [] =
       (Normal r, []) /\
     is_failure r 400
       "All fields are required: recipient email, subject, name, and message") /\
  (exists r,
     Basic.handler Example.delivering
       (JObj (<["to" := JStr "a@b.com"]> (<["subject" := JStr ""]> ∅))) [] =
       (Normal r, []) /\
     is_failure r 400
       "All fields are required: recipient email, subject, name, and message").
Proof.
  pose proof (missing_field_is_rejected Example.delivering
                (<["to" := JStr "a@b.com"]> (<["subject" := JStr ""]> ∅))
                "subject" [] (or_intror eq_refl)) as [HS HB].
  split.
  - apply HS. simpl. auto.
  - apply HB. simpl. auto.
Defined.

(** Every non-string field is answered 400 by the hardened handler, by
    the required-field check when the value is falsy and by the type
    check otherwise. *)
Lemma Strict_non_string_rejected c props field v log :
  In field Strict.requiredFields ->
  props !! field = Some v ->
  (forall s, v <> JStr s) ->
  exists r error,
    Strict.handler c (JObj props) log = (Normal r, log) /\
    is_failure r 400 error.
Proof.
  intros Hin Hv Hns.
  apply get_present in Hv. apply non_string_typeof in Hns. rewrite <- Hv in Hns.
  match goal with |- context [Strict.handler c ?b log] =>
    destruct (negb (ToBoolean (get b "to")) || negb (ToBoolean (get b "subject"))
              || negb (ToBoolean (get b "name")) || negb (ToBoolean (get b "message"))
              || negb (ToBoolean (get b "phone"))) eqn:G1 end.
  - eexists _, _. split; [apply Strict_required_guard, G1 | apply is_failure_literal].
  - eexists _, _. split; [apply Strict_types_guard; [exact G1|] | apply is_failure_literal].
    simpl in Hin.
    destruct Hin as [<-|[<-|[<-|[<-|[<-|[]]]]]]; guard_holds Hns.
Qed.

(** C6.  A request in which a submitted field is present but is not a
    string is to be answered 400 with [success: false] and nothing sent.
    The hardened handler does so (here by its type check; in general by
    lemma [Strict_non_string_rejected]).  The first handler does not: the
    request with the number 5 as [subject] passes its required-field and
    address checks, there is no type check, and [subject.substring]
    throws a [TypeError] before the [try] block is entered, so that the
    handler produces no response at all. *)
Theorem Basic_non_string_subject_throws c log :
  Basic.handler c Example.numeric_subject log =
    (Throw (TypeError "substring is not a function"), log) /\
  exists r,
    Strict.handler c Example.numeric_subject log = (Normal r, log) /\
    is_failure r 400 "Invalid input types".
Proof.
  unfold Example.numeric_subject, obj. split.
  - apply Basic_sanitize_throws with (to_s := "a@b.com"); reflexivity.
  - eexists. split; [| apply is_failure_literal].
    apply Strict_types_guard; reflexivity.
Qed.

(** C5, as amended.  For every request whose required fields are all
    present and whose [to] does not match the pattern, the handler
    responds 400 with [success: false] and the error "Please provide a
    valid email address", and hands nothing to the transport -- provided,
    for the hardened handler, that the five fields are strings, and, for
    the first handler, that [to] converts to a string. *)
Theorem malformed_address_is_rejected c req_body log :
  (forall to subject name message phone,
     get req_body "to" = JStr to -> get req_body "subject" = JStr subject ->
     get req_body "name" = JStr name -> get req_body "message" = JStr message ->
     get req_body "phone" = JStr phone ->
     to <> "" -> subject <> "" -> name <> "" -> message <> "" -> phone <> "" ->
     Regex.test Regex.emailRegex to = false ->
     exists r,
       Strict.handler c req_body log = (Normal r, log) /\
       is_failure r 400 "Please provide a valid email address") /\
  (forall to_s,
     (forall field, In field Basic.requiredFields ->
                    ToBoolean (get req_body field) = true) ->
     ToString (get req_body "to") = Normal to_s ->
     Regex.test Regex.emailRegex to_s = false ->
     exists r,
       Basic.handler c req_body log = (Normal r, log) /\
       is_failure r 400 "Please provide a valid email address").
Proof.
  split.
  - intros to subject name message phone ? ? ? ? ? ? ? ? ? ? Hre.
    eexists. split; [| apply is_failure_literal].
    apply (Strict_format_guard c _ to subject name message phone); assumption.
  - intros to_s Hall Hs Hre.
    destruct (truthy_field_is_object req_body "to") as [props ->].
    { apply Hall. simpl. auto. }
    eexists. split; [| apply is_failure_literal].
    apply Basic_format_guard with (to_s := to_s); try assumption.
    rewrite !Hall by (simpl; auto 6). reflexivity.
Qed.

Lemma malformed_address_is_rejected_witness :
  (exists r,
     Strict.handler Example.delivering Example.malformed [] = (Normal r, []) /\
     is_failure r 400 "Please provide a valid email address") /\
  (exists r,
     Basic.handler Example.delivering Example.malformed [] = (Normal r, []) /\
     is_failure r 400 "Please provide a valid email address").
Proof.
  pose proof (malformed_address_is_rejected Example.delivering
                Example.malformed []) as [HS HB].
  split.
  - apply (HS "not-an-email" "Hi" "Sam" "Hello" "123");
      try reflexivity; discriminate.
  - apply (HB "not-an-email"); try reflexivity.
    intros field Hin. simpl in Hin.
    destruct Hin as [<-|[<-|[<-|[<-|[]]]]]; reflexivity.
Defined.

(** C5 as stated fails on the hardened handler: with every required field
    present and a [to] that does not match the pattern, a numeric
    [subject] is answered with the error of the type check. *)
Lemma malformed_address_other_error :
  (forall field, In field Strict.requiredFields ->
                 ToBoolean (get Example.malformed_numeric_subject field) = true) /\
  get Example.malformed_numeric_subject "to" = JStr "not-an-email" /\
  Regex.test Regex.emailRegex "not-an-email" = false /\
  exists r,
    Strict.handler Example.delivering Example.malformed_numeric_subject [] =
      (Normal r, []) /\
    is_failure r 400 "Invalid input types" /\
    ~ is_failure r 400 "Please provide a valid email address".
Proof.
  split; [| split; [reflexivity | split; [reflexivity |]]].
  - intros field Hin. simpl in Hin.
    destruct Hin as [<-|[<-|[<-|[<-|[<-|[]]]]]]; reflexivity.
  - eexists. split; [reflexivity | split; [repeat split |]].
    intros (_ & _ & H). discriminate H.
Qed.

(** ** Composition of the outgoing messages *)

(** The sends of an accepted request to the hardened handler. *)
Lemma Strict_sends c req_body to subject name message phone html log :
  Strict.accepted c req_body to subject name message phone html ->
  (Strict.handler c req_body log).2 =
    (log ++ [Strict.adminNotification c to subject name message html])%list \/
  (Strict.handler c req_body log).2 =
    (log ++ [Strict.adminNotification c to subject name message html;
             Strict.userConfirmation c to subject name])%list.
Proof.
  intros Hacc. rewrite (Strict_handler_accepted _ _ _ _ _ _ _ _ _ Hacc).
  cbv zeta.
  destruct (transporter_sendMail c log _); [| left; reflexivity].
  destruct (strict_eq _ _); [left | right]; reflexivity.
Qed.

(** The sends of an accepted request to the first handler. *)
Lemma Basic_sends c req_body to to_s subject name message html log :
  Basic.accepted c req_body to to_s subject name message html ->
  (Basic.handler c req_body log).2 =
    (log ++ [Basic.notification c to to_s subject name message html])%list.
Proof.
  intros Hacc. rewrite (Basic_handler_accepted _ _ _ _ _ _ _ _ _ Hacc).
  reflexivity.
Qed.

(** Two validated requests that agree on [to], on [phone] and on the
    first 100, 50 and 2000 characters of [subject], [name] and [message]
    are handled alike: what lies beyond those bounds reaches no message
    and no response. *)
Lemma Strict_run_depends_on_prefixes
    c b1 b2 to phone subject1 name1 message1 subject2 name2 message2 log :
  Strict.validated b1 to subject1 name1 message1 phone ->
  Strict.validated b2 to subject2 name2 message2 phone ->
  String.substring 0 100 subject1 = String.substring 0 100 subject2 ->
  String.substring 0 50 name1 = String.substring 0 50 name2 ->
  String.substring 0 2000 message1 = String.substring 0 2000 message2 ->
  Strict.handler c b1 log = Strict.handler c b2 log.
Proof.
  intros V1 V2 Es En Em.
  destruct (ejs_renderFile c (templatePath c "welcome")
              (Strict.adminTemplateData c (JStr to) (JStr phone)
                 (String.substring 0 100 subject1) (String.substring 0 50 name1)
                 (String.substring 0 2000 message1))) as [html|e] eqn:R.
  - rewrite (Strict_handler_accepted c b1 to subject1 name1 message1 phone html)
      by (split; assumption).
    rewrite (Strict_handler_accepted c b2 to subject2 name2 message2 phone html)
      by (split; [assumption | rewrite <- Es, <- En, <- Em; exact R]).
    unfold Strict.adminNotification, Strict.userConfirmation.
    rewrite Es, En, Em. reflexivity.
  - rewrite (Strict_handler_render_fails c b1 to subject1 name1 message1 phone e)
      by assumption.
    rewrite (Strict_handler_render_fails c b2 to subject2 name2 message2 phone e)
      by (try assumption; rewrite <- Es, <- En, <- Em; exact R).
    reflexivity.
Qed.

(** A subject of 120 characters reaches both messages cut to 100. *)
Example long_subject_is_cut :
  String.length Example.long_subject = 120 /\
  exists admin user,
    (Strict.handler Example.delivering Example.long_inquiry []).2 =
      [admin; user] /\
    get admin "subject" =
      JStr ("New Inquiry: " +:+ String.substring 0 100 Example.long_subject) /\
    get user "subject" =
      JStr ("We've received your message about "
            +:+ String.substring 0 100 Example.long_subject) /\
    String.length (String.substring 0 100 Example.long_subject) = 100.
Proof.
  split; [reflexivity |].
  eexists _, _. split; [vm_compute; reflexivity |].
  repeat split.
Qed.

(** C3. For every accepted request, the subject, name and message placed
    into an outgoing message -- the admin notification and the
    confirmation, their text and their HTML, the latter through the data
    given to the template -- are the first 100, 50 and 2000 characters of
    the submitted values; nothing longer is sent. *)
Theorem outgoing_fields_are_truncated c log :
  (forall req_body to subject name message phone html,
     let s := String.substring 0 100 subject in
     let n := String.substring 0 50 name in
     let m := String.substring 0 2000 message in
     Strict.validated req_body to subject name message phone ->
     ejs_renderFile c (templatePath c "welcome")
       (Strict.adminTemplateData c (JStr to) (JStr phone) s n m) = Normal html ->
     let admin :=
       Strict.adminMailOptions c (env_string c "EMAIL_USERNAME") to s n m html in
     let user :=
       Strict.userMailOptions (env_string c "EMAIL_USERNAME") (JStr to) s n
         (Strict.confirmationHtml n s) in
     (String.length s <= 100 /\ String.length n <= 50 /\
      String.length m <= 2000) /\
     ((Strict.handler c req_body log).2 = (log ++ [admin])%list \/
      (Strict.handler c req_body log).2 = (log ++ [admin; user])%list)) /\
  (forall req_body to to_s subject name message html,
     let s := String.substring 0 100 subject in
     let n := String.substring 0 50 name in
     let m := String.substring 0 2000 message in
     Basic.validated req_body to to_s subject name message ->
     ejs_renderFile c (templatePath c "welcome")
       (Basic.templateData c s n m) = Normal html ->
     let mail :=
       Basic.mailOptions c (env_string c "EMAIL_USERNAME") to to_s s n m html in
     (String.length s <= 100 /\ String.length n <= 50 /\
      String.length m <= 2000) /\
     (Basic.handler c req_body log).2 = (log ++ [mail])%list).
Proof.
  split.
  - intros req_body to subject name message phone html s n m Hv Hr admin user.
    split; [repeat split; apply substring_length_le |].
    apply (Strict_sends c req_body to subject name message phone html log).
    split; assumption.
  - intros req_body to to_s subject name message html s n m Hv Hr mail.
    split; [repeat split; apply substring_length_le |].
    apply (Basic_sends c req_body to to_s subject name message html log).
    split; assumption.
Qed.

Lemma outgoing_fields_are_truncated_witness :
  ((String.length (String.substring 0 100 "Hi") <= 100 /\
    String.length (String.substring 0 50 "Sam") <= 50 /\
    String.length (String.substring 0 2000 "Hello there") <= 2000) /\
   ((Strict.handler Example.delivering Example.inquiry []).2 =
      [Strict.adminMailOptions Example.delivering "mailer@co.com" "a@b.com"
         "Hi" "Sam" "Hello there" "<p>rendered</p>"] \/
    (Strict.handler Example.delivering Example.inquiry []).2 =
      [Strict.adminMailOptions Example.delivering "mailer@co.com" "a@b.com"
         "Hi" "Sam" "Hello there" "<p>rendered</p>";
       Strict.userMailOptions "mailer@co.com" (JStr "a@b.com") "Hi" "Sam"
         (Strict.confirmationHtml "Sam" "Hi")])) /\
  ((String.length (String.substring 0 100 "Hi") <= 100 /\
    String.length (String.substring 0 50 "Sam") <= 50 /\
    String.length (String.substring 0 2000 "Hello there") <= 2000) /\
   (Basic.handler Example.delivering Example.inquiry []).2 =
     [Basic.mailOptions Example.delivering "mailer@co.com" (JStr "a@b.com")
        "a@b.com" "Hi" "Sam" "Hello there" "<p>rendered</p>"]).
Proof.
  pose proof (outgoing_fields_are_truncated Example.delivering []) as [HS HB].
  split.
  - apply (HS Example.inquiry "a@b.com" "Hi" "Sam" "Hello there" "123"
             "<p>rendered</p>").
    + repeat split; try reflexivity; discriminate.
    + reflexivity.
  - apply (HB Example.inquiry (JStr "a@b.com") "a@b.com" "Hi" "Sam"
             "Hello there" "<p>rendered</p>").
    + repeat split; try reflexivity; discriminate.
    + reflexivity.
Defined.

(** ** Headers and addressing *)

(** C8 as stated fails on the hardened handler: the confirmation handed
    to the transport for the example inquiry has no [headers] at all. *)
Lemma confirmation_has_no_priority_headers :
  exists admin user,
    (Strict.handler Example.delivering Example.inquiry []).2 = [admin; user] /\
    get user "to" = JStr "a@b.com" /\
    get user "headers" = JUndefined /\
    get (get user "headers") "X-Priority" <> JStr "1" /\
    get (get user "headers") "X-MSMail-Priority" <> JStr "High".
Proof.
  eexists _, _. split; [vm_compute; reflexivity |].
  repeat split; try reflexivity; discriminate.
Qed.

(** C8, as amended.  Every admin notification composed by either handler
    carries the headers [X-Priority: 1] and [X-MSMail-Priority: High]; the
    user confirmation of the hardened handler carries no headers; and
    these are the only messages an accepted request hands to the
    transport. *)
Theorem priority_headers_on_notifications c log :
  (forall req_body to subject name message phone html,
     Strict.accepted c req_body to subject name message phone html ->
     let admin := Strict.adminNotification c to subject name message html in
     let user := Strict.userConfirmation c to subject name in
     get (get admin "headers") "X-Priority" = JStr "1" /\
     get (get admin "headers") "X-MSMail-Priority" = JStr "High" /\
     get user "headers" = JUndefined /\
     ((Strict.handler c req_body log).2 = (log ++ [admin])%list \/
      (Strict.handler c req_body log).2 = (log ++ [admin; user])%list)) /\
  (forall req_body to to_s subject name message html,
     Basic.accepted c req_body to to_s subject name message html ->
     let mail := Basic.notification c to to_s subject name message html in
     get (get mail "headers") "X-Priority" = JStr "1" /\
     get (get mail "headers") "X-MSMail-Priority" = JStr "High" /\
     (Basic.handler c req_body log).2 = (log ++ [mail])%list).
Proof.
  split.
  - intros req_body to subject name message phone html Hacc admin user.
    repeat (split; [reflexivity |]).
    apply (Strict_sends c req_body to subject name message phone html log Hacc).
  - intros req_body to to_s subject name message html Hacc mail.
    repeat (split; [reflexivity |]).
    apply (Basic_sends c req_body to to_s subject name message html log Hacc).
Qed.

Lemma priority_headers_on_notifications_witness :
  (let admin := Strict.adminNotification Example.delivering
                  "a@b.com" "Hi" "Sam" "Hello there" "<p>rendered</p>" in
   let user := Strict.userConfirmation Example.delivering "a@b.com" "Hi" "Sam" in
   get (get admin "headers") "X-Priority" = JStr "1" /\
   get (get admin "headers") "X-MSMail-Priority" = JStr "High" /\
   get user "headers" = JUndefined /\
   ((Strict.handler Example.delivering Example.inquiry []).2 = [admin] \/
    (Strict.handler Example.delivering Example.inquiry []).2 = [admin; user])) /\
  (let mail := Basic.notification Example.delivering (JStr "a@b.com")
                 "a@b.com" "Hi" "Sam" "Hello there" "<p>rendered</p>" in
   get (get mail "headers") "X-Priority" = JStr "1" /\
   get (get mail "headers") "X-MSMail-Priority" = JStr "High" /\
   (Basic.handler Example.delivering Example.inquiry []).2 = [mail]).
Proof.
  pose proof (priority_headers_on_notifications Example.delivering [])
    as [HS HB].
  split.
  - apply (HS Example.inquiry "a@b.com" "Hi" "Sam" "Hello there" "123"
             "<p>rendered</p>").
    repeat split; try reflexivity; discriminate.
  - apply (HB Example.inquiry (JStr "a@b.com") "a@b.com" "Hi" "Sam"
             "Hello there" "<p>rendered</p>").
    repeat split; try reflexivity; discriminate.
Defined.

(** C9 as stated fails on the first handler: with no admin address
    configured, the notification goes to the address submitted as [to]. *)
Lemma recipient_falls_back_to_submitter :
  env Example.without_admin !! "ADMIN_EMAIL" = None /\
  get Example.inquiry "to" = JStr "a@b.com" /\
  exists mail r,
    Basic.handler Example.without_admin Example.inquiry [] =
      (Normal r, [mail]) /\
    is_success r /\
    get mail "to" = JStr "a@b.com".
Proof.
  split; [reflexivity | split; [reflexivity |]].
  eexists _, _. split; [vm_compute; reflexivity |].
  repeat split.
Qed.

(** C9, as amended.  For every accepted request the admin notification is
    the first message handed to the transport.  In the hardened handler
    its recipient is the configured admin address whatever [to] is, its
    sender is the service identity, and [to] appears in its reply-to
    (and in the text body).  In the first handler the recipient is the
    configured admin address when there is one, and the submitted [to]
    when none is configured; its reply-to is the submitted [to]. *)
Theorem notification_addressing c log :
  (forall req_body to subject name message phone html,
     Strict.accepted c req_body to subject name message phone html ->
     let admin := Strict.adminNotification c to subject name message html in
     (exists rest,
        (Strict.handler c req_body log).2 = (log ++ admin :: rest)%list) /\
     get admin "to" = process_env c "ADMIN_EMAIL" /\
     (forall address,
        env c !! "ADMIN_EMAIL" = Some address -> get admin "to" = JStr address) /\
     get admin "from" =
       JStr (dq +:+ "Lucid Petro Chemical" +:+ dq +:+ " <"
             +:+ env_string c "EMAIL_USERNAME" +:+ ">") /\
     get admin "replyTo" =
       JStr (dq +:+ String.substring 0 50 name +:+ dq +:+ " <" +:+ to +:+ ">") /\
     get admin "text" =
       JStr (Strict.adminText to (String.substring 0 100 subject)
               (String.substring 0 50 name) (String.substring 0 2000 message))) /\
  (forall req_body to to_s subject name message html,
     Basic.accepted c req_body to to_s subject name message html ->
     let mail := Basic.notification c to to_s subject name message html in
     (Basic.handler c req_body log).2 = (log ++ [mail])%list /\
     (forall address,
        env c !! "ADMIN_EMAIL" = Some address -> address <> "" ->
        get mail "to" = JStr address) /\
     (env c !! "ADMIN_EMAIL" = None \/ env c !! "ADMIN_EMAIL" = Some "" ->
      get mail "to" = to) /\
     get mail "from" =
       JStr (dq +:+ "Website Contact" +:+ dq +:+ " <"
             +:+ env_string c "EMAIL_USERNAME" +:+ ">") /\
     get mail "replyTo" = to).
Proof.
  split.
  - intros req_body to subject name message phone html Hacc admin.
    split.
    { destruct (Strict_sends c req_body to subject name message phone html log Hacc)
        as [E|E]; rewrite E; eauto. }
    split; [reflexivity |]. split; [| repeat split].
    intros address H.
    change (get admin "to") with (process_env c "ADMIN_EMAIL").
    unfold process_env. rewrite H. reflexivity.
  - intros req_body to to_s subject name message html Hacc mail.
    split; [apply (Basic_sends c req_body to to_s subject name message html log Hacc) |].
    change (get mail "to") with (or (process_env c "ADMIN_EMAIL") to).
    unfold or, process_env.
    split; [| split; [| repeat split]].
    + intros address H Hne. rewrite H, (ToBoolean_JStr _ Hne). reflexivity.
    + intros [H|H]; rewrite H; reflexivity.
Qed.

Lemma notification_addressing_witness :
  get (Strict.adminNotification Example.delivering
         "a@b.com" "Hi" "Sam" "Hello there" "<p>rendered</p>") "to"
    = JStr "admin@co.com" /\
  get (Basic.notification Example.delivering (JStr "a@b.com")
         "a@b.com" "Hi" "Sam" "Hello there" "<p>rendered</p>") "to"
    = JStr "admin@co.com" /\
  get (Basic.notification Example.without_admin (JStr "a@b.com")
         "a@b.com" "Hi" "Sam" "Hello there" "<p>rendered</p>") "to"
    = JStr "a@b.com".
Proof.
  pose proof (notification_addressing Example.delivering []) as [HS HB].
  pose proof (notification_addressing Example.without_admin []) as [_ HB'].
  split; [| split].
  - destruct (HS Example.inquiry "a@b.com" "Hi" "Sam" "Hello there" "123"
                "<p>rendered</p>") as (_ & _ & Hto & _).
    + repeat split; try reflexivity; discriminate.
    + apply Hto. reflexivity.
  - destruct (HB Example.inquiry (JStr "a@b.com") "a@b.com" "Hi" "Sam"
                "Hello there" "<p>rendered</p>") as (_ & Hto & _).
    + repeat split; try reflexivity; discriminate.
    + apply Hto; [reflexivity | discriminate].
  - destruct (HB' Example.inquiry (JStr "a@b.com") "a@b.com" "Hi" "Sam"
                "Hello there" "<p>rendered</p>") as (_ & _ & Hto & _).
    + repeat split; try reflexivity; discriminate.
    + apply Hto. left. reflexivity.
Defined.

(** * Further properties *)

(** ** Every run of the hardened handler *)

Section StrictCases.
Context (c : Collaborators).

Local Abbreviation guard_required b :=
  (negb (ToBoolean (get b "to")) || negb (ToBoolean (get b "subject"))
   || negb (ToBoolean (get b "name")) || negb (ToBoolean (get b "message"))
   || negb (ToBoolean (get b "phone"))).

Local Abbreviation guard_types b :=
  (negb (typeof (get b "to") =? "string")
   || negb (typeof (get b "subject") =? "string")
   || negb (typeof (get b "name") =? "string")
   || negb (typeof (get b "message") =? "string")
   || negb (typeof (get b "phone") =? "string")).

(** A body without properties: an array or a primitive other than
    [undefined] and [null]. *)
Lemma Strict_handler_no_properties req_body log :
  req_body <> JUndefined -> req_body <> JNull ->
  (forall props, req_body <> JObj props) ->
  Strict.handler c req_body log =
    (Normal (res_status_json 400
               (obj [("success", JBool false);
                     ("error", JStr "All fields are required: recipient email, subject, name, and message")])),
     log).
Proof.
  intros H1 H2 H3.
  destruct req_body as [ | | b | z | s | items | props];
    try reflexivity; try congruence.
Qed.

(** [undefined] or [null] as body: the destructuring throws inside the
    [try] block. *)
Lemma Strict_handler_no_body req_body log :
  req_body = JUndefined \/ req_body = JNull ->
  exists r error,
    Strict.handler c req_body log = (Normal r, log) /\ is_failure r 500 error.
Proof.
  intros [-> | ->]; eexists _, _; (split; [reflexivity | repeat split]).
Qed.

(** The three rejections of a body with properties, with their texts. *)
Lemma Strict_rejection_or_validated props log :
  (exists r error,
      Strict.handler c (JObj props) log = (Normal r, log) /\
      is_failure r 400 error /\
      In error ["All fields are required: recipient email, subject, name, and message";
                "Invalid input types";
                "Please provide a valid email address"]) \/
  (exists to subject name message phone,
      Strict.validated (JObj props) to subject name message phone).
Proof.
  destruct (guard_required (JObj props)) eqn:G1.
  { left. eexists _, _. split; [apply Strict_required_guard, G1 |].
    split; [apply is_failure_literal | simpl; auto]. }
  destruct (guard_types (JObj props)) eqn:G2.
  { left. eexists _, _. split; [apply Strict_types_guard; assumption |].
    split; [apply is_failure_literal | simpl; auto]. }
  destruct (Strict_rejected_or_validated c props log)
    as [(r & error & Hrun & Hfail) | Hv]; [| right; exact Hv].
  left. exists r, error. split; [exact Hrun |]. split; [exact Hfail |].
  rewrite !orb_false_iff, !negb_false_iff in G1, G2.
  destruct G1 as ((((B1 & B2) & B3) & B4) & B5).
  destruct G2 as ((((T1 & T2) & T3) & T4) & T5).
  apply typeof_string_inv in T1 as [to Eto], T2 as [subject Esubject],
    T3 as [name Ename], T4 as [message Emessage], T5 as [phone Ephone].
  rewrite Eto in B1. rewrite Esubject in B2. rewrite Ename in B3.
  rewrite Emessage in B4. rewrite Ephone in B5.
  apply ToBoolean_JStr_inv in B1, B2, B3, B4, B5.
  destruct (Regex.test Regex.emailRegex to) eqn:Hre.
  - exfalso.
    assert (Hv : Strict.validated (JObj props) to subject name message phone)
      by (repeat split; assumption).
    destruct (ejs_renderFile c (templatePath c "welcome")
                (Strict.adminTemplateData c (JStr to) (JStr phone)
                   (String.substring 0 100 subject) (String.substring 0 50 name)
                   (String.substring 0 2000 message))) as [html|e] eqn:R.
    + rewrite (Strict_handler_accepted c _ to subject name message phone html)
        in Hrun by (split; assumption).
      cbv zeta in Hrun. destruct Hfail as (Hst & _).
      destruct (transporter_sendMail c log _); injection Hrun as <- _;
        discriminate Hst.
    + rewrite (Strict_handler_render_fails c _ to subject name message phone e)
        in Hrun by assumption.
      destruct Hfail as (Hst & _). injection Hrun as <-. discriminate Hst.
  - rewrite (Strict_format_guard c _ to subject name message phone) in Hrun
      by assumption.
    injection Hrun as <-. destruct Hfail as (_ & _ & He).
    unfold res_status_json in He. cbn [body] in He.
    rewrite get_error in He. injection He as <-. simpl. auto.
Qed.

(** Every run, by its case: no body, a rejection, a failed rendering, or
    an accepted request with the outcome of its admin send. *)
Lemma Strict_handler_cases req_body log :
  (exists r error,
      Strict.handler c req_body log = (Normal r, log) /\
      is_failure r 500 error /\
      (req_body = JUndefined \/ req_body = JNull)) \/
  (exists r error,
      Strict.handler c req_body log = (Normal r, log) /\
      is_failure r 400 error /\
      In error ["All fields are required: recipient email, subject, name, and message";
                "Invalid input types";
                "Please provide a valid email address"]) \/
  (exists to subject name message phone r,
      Strict.validated req_body to subject name message phone /\
      Strict.handler c req_body log = (Normal r, log) /\
      is_failure r 500 "Failed to render email template") \/
  (exists to subject name message phone html r,
      Strict.accepted c req_body to subject name message phone html /\
      transporter_sendMail c log
        (Strict.adminNotification c to subject name message html) <> Normal tt /\
      Strict.handler c req_body log =
        (Normal r,
         (log ++ [Strict.adminNotification c to subject name message html])%list) /\
      is_failure r 500 "Failed to send email to admin") \/
  (exists to subject name message phone html r,
      Strict.accepted c req_body to subject name message phone html /\
      transporter_sendMail c log
        (Strict.adminNotification c to subject name message html) = Normal tt /\
      is_success r /\
      ((env c !! "ADMIN_EMAIL" = Some to /\
        Strict.handler c req_body log =
          (Normal r,
           (log ++ [Strict.adminNotification c to subject name message html])%list)) \/
       (env c !! "ADMIN_EMAIL" <> Some to /\
        Strict.handler c req_body log =
          (Normal r,
           (log ++ [Strict.adminNotification c to subject name message html;
                    Strict.userConfirmation c to subject name])%list)))).
Proof.
  destruct req_body as [ | | b | z | s | items | props].
  1,2: left; eexists _, _; split; [reflexivity |]; split; [repeat split | auto].
  1,2,3,4: right; left; eexists _, _;
    (split; [apply Strict_handler_no_properties; congruence |]);
    (split; [apply is_failure_literal | simpl; auto]).
  destruct (Strict_rejection_or_validated props log)
    as [Hrej | (to & subject & name & message & phone & Hv)].
  { right; left. exact Hrej. }
  destruct (ejs_renderFile c (templatePath c "welcome")
              (Strict.adminTemplateData c (JStr to) (JStr phone)
                 (String.substring 0 100 subject) (String.substring 0 50 name)
                 (String.substring 0 2000 message))) as [html|e] eqn:R.
  2:{ right; right; left. exists to, subject, name, message, phone.
      eexists. split; [exact Hv |].
      split; [apply (Strict_handler_render_fails c _ to subject name message phone e);
              assumption |].
      apply is_failure_literal. }
  assert (Hacc : Strict.accepted c (JObj props) to subject name message phone html)
    by (split; assumption).
  pose proof (Strict_handler_accepted c _ _ _ _ _ _ _ log Hacc) as Hrun.
  cbv zeta in Hrun.
  destruct (transporter_sendMail c log
              (Strict.adminNotification c to subject name message html))
    as [[]|e] eqn:Hsend.
  - right; right; right; right.
    exists to, subject, name, message, phone, html. eexists.
    split; [exact Hacc |]. split; [exact Hsend |].
    split; [apply is_success_literal |].
    destruct (strict_eq (JStr to) (process_env c "ADMIN_EMAIL")) eqn:E.
    + left. split; [apply strict_eq_env, E | exact Hrun].
    + right. split; [| exact Hrun].
      intros H. apply strict_eq_env in H. congruence.
  - right; right; right; left.
    exists to, subject, name, message, phone, html. eexists.
    split; [exact Hacc |]. split; [rewrite Hsend; discriminate |].
    split; [exact Hrun | apply is_failure_literal].
Qed.

End StrictCases.

(** X3 (outcomes of the hardened handler).  The hardened handler answers
    every request, whatever the body, the renderer and the transport do:
    nothing thrown leaves it.  It answers 200 with [success: true] after
    one or two sends, 400 with [success: false] after none, or 500 with
    [success: false] after at most one; it only ever appends to the list
    of attempted sends. *)
Theorem Strict_always_answers c req_body log :
  exists r sends,
    Strict.handler c req_body log = (Normal r, (log ++ sends)%list) /\
    ((is_success r /\ 1 <= length sends <= 2) \/
     (status r = 400%Z /\ get (body r) "success" = JBool false /\ sends = []) \/
     (status r = 500%Z /\ get (body r) "success" = JBool false /\
      length sends <= 1)).
Proof.
  destruct (Strict_handler_cases c req_body log)
    as [(r & error & Hrun & (Hst & Hsu & _) & _)
       |[(r & error & Hrun & (Hst & Hsu & _) & _)
       |[(to & subject & name & message & phone & r & _ & Hrun & (Hst & Hsu & _))
       |[(to & subject & name & message & phone & html & r & _ & _ & Hrun
          & (Hst & Hsu & _))
       |(to & subject & name & message & phone & html & r & _ & _ & Hok
          & [[_ Hrun] | [_ Hrun]])]]]].
  - exists r, []. rewrite app_nil_r. split; [exact Hrun |].
    right; right. simpl. auto.
  - exists r, []. rewrite app_nil_r. split; [exact Hrun |].
    right; left. auto.
  - exists r, []. rewrite app_nil_r. split; [exact Hrun |].
    right; right. simpl. auto.
  - eexists r, [_]. split; [exact Hrun |]. right; right. simpl. auto.
  - eexists r, [_]. split; [exact Hrun |]. left. simpl. auto.
  - eexists r, [_; _]. split; [exact Hrun |]. left. simpl. auto.
Qed.

(** X4 (error texts).  The error text answered by the hardened handler to
    a body with properties is one of five fixed texts: whatever error the
    template renderer or the mail transport raises, its message does not
    reach the response. *)
Theorem Strict_error_texts_are_fixed c props log :
  exists r log',
    Strict.handler c (JObj props) log = (Normal r, log') /\
    (is_success r \/
     exists code error,
       is_failure r code error /\
       In (code, error)
         [(400%Z, "All fields are required: recipient email, subject, name, and message");
          (400%Z, "Invalid input types");
          (400%Z, "Please provide a valid email address");
          (500%Z, "Failed to render email template");
          (500%Z, "Failed to send email to admin")]).
Proof.
  destruct (Strict_handler_cases c (JObj props) log)
    as [(r & error & _ & _ & [H|H])
       |[(r & error & Hrun & Hfail & Hin)
       |[(to & subject & name & message & phone & r & _ & Hrun & Hfail)
       |[(to & subject & name & message & phone & html & r & _ & _ & Hrun & Hfail)
       |(to & subject & name & message & phone & html & r & _ & _ & Hok
          & [[_ Hrun] | [_ Hrun]])]]]]; try discriminate H.
  - exists r, log. split; [exact Hrun |]. right. exists 400%Z, error.
    split; [exact Hfail |].
    simpl in Hin |- *.
    destruct Hin as [<-|[<-|[<-|[]]]]; auto.
  - exists r, log. split; [exact Hrun |]. right.
    eexists _, _. split; [exact Hfail |]. simpl. auto.
  - eexists r, _. split; [exact Hrun |]. right.
    eexists _, _. split; [exact Hfail |]. simpl. auto 6.
  - eexists r, _. split; [exact Hrun |]. left. exact Hok.
  - eexists r, _. split; [exact Hrun |]. left. exact Hok.
Qed.

(** X5 (what success means).  When the hardened handler answers 200, the
    request was validated, the template rendered, and the transport took
    delivery of the admin notification; the sends are the notification
    alone or the notification followed by the confirmation. *)
Theorem Strict_success_means_admin_delivered c req_body log r log' :
  Strict.handler c req_body log = (Normal r, log') ->
  status r = 200%Z ->
  exists to subject name message phone html,
    Strict.accepted c req_body to subject name message phone html /\
    transporter_sendMail c log
      (Strict.adminNotification c to subject name message html) = Normal tt /\
    (log' = (log ++ [Strict.adminNotification c to subject name message html])%list \/
     log' = (log ++ [Strict.adminNotification c to subject name message html;
                     Strict.userConfirmation c to subject name])%list).
Proof.
  intros H Hst.
  destruct (Strict_handler_cases c req_body log)
    as [(r0 & error & Hrun & (Hst0 & _) & _)
       |[(r0 & error & Hrun & (Hst0 & _) & _)
       |[(to & subject & name & message & phone & r0 & _ & Hrun & (Hst0 & _))
       |[(to & subject & name & message & phone & html & r0 & _ & _ & Hrun
          & (Hst0 & _))
       |(to & subject & name & message & phone & html & r0 & Hacc & Hsend & _
          & [[_ Hrun] | [_ Hrun]])]]]];
    rewrite Hrun in H; injection H as <- <-; try congruence;
    exists to, subject, name, message, phone, html; auto.
Qed.

Lemma Strict_success_means_admin_delivered_witness :
  exists to subject name message phone html,
    Strict.accepted Example.delivering Example.inquiry
      to subject name message phone html /\
    transporter_sendMail Example.delivering []
      (Strict.adminNotification Example.delivering to subject name message html)
      = Normal tt /\
    ([Strict.adminNotification Example.delivering
        "a@b.com" "Hi" "Sam" "Hello there" "<p>rendered</p>";
      Strict.userConfirmation Example.delivering "a@b.com" "Hi" "Sam"] =
       ([] ++ [Strict.adminNotification Example.delivering
                 to subject name message html])%list \/
     [Strict.adminNotification Example.delivering
        "a@b.com" "Hi" "Sam" "Hello there" "<p>rendered</p>";
      Strict.userConfirmation Example.delivering "a@b.com" "Hi" "Sam"] =
       ([] ++ [Strict.adminNotification Example.delivering
                 to subject name message html;
               Strict.userConfirmation Example.delivering to subject name])%list).
Proof.
  apply (Strict_success_means_admin_delivered Example.delivering
           Example.inquiry []
           (res_json
              (obj [("success", JBool true);
                    ("message", JStr "Your message has been sent successfully")]))).
  - vm_compute. reflexivity.
  - reflexivity.
Defined.

(** X6 (what is rejected).  The hardened handler answers a body with
    properties with status 400, and then sends nothing, exactly when the
    body fails validation: when the five fields are not all non-empty
    strings or [to] does not match the address pattern. *)
Theorem Strict_400_iff_invalid c props log :
  (exists r,
      Strict.handler c (JObj props) log = (Normal r, log) /\
      status r = 400%Z) <->
  ~ (exists to subject name message phone,
        Strict.validated (JObj props) to subject name message phone).
Proof.
  split.
  - intros (r & H & Hst) (to & subject & name & message & phone & Hv).
    destruct (ejs_renderFile c (templatePath c "welcome")
                (Strict.adminTemplateData c (JStr to) (JStr phone)
                   (String.substring 0 100 subject) (String.substring 0 50 name)
                   (String.substring 0 2000 message))) as [html|e] eqn:R.
    + rewrite (Strict_handler_accepted c _ to subject name message phone html)
        in H by (split; assumption).
      cbv zeta in H.
      destruct (transporter_sendMail c log _); injection H as <- _;
        discriminate Hst.
    + rewrite (Strict_handler_render_fails c _ to subject name message phone e)
        in H by assumption.
      injection H as <-. discriminate Hst.
  - intros Hnv.
    destruct (Strict_rejected_or_validated c props log)
      as [(r & error & Hrun & (Hst & _)) | Hv]; [| contradiction].
    exists r. auto.
Qed.

Lemma Strict_400_iff_invalid_witness :
  exists r,
    Strict.handler Example.delivering Example.malformed [] = (Normal r, []) /\
    status r = 400%Z.
Proof.
  apply (proj2 (Strict_400_iff_invalid Example.delivering
                  (list_to_map
                     [("to", JStr "not-an-email"); ("subject", JStr "Hi");
                      ("name", JStr "Sam"); ("message", JStr "Hello");
                      ("phone", JStr "123")]) [])).
  intros (to & subject & name & message & phone & Hv).
  destruct Hv as (Hto & _ & _ & _ & _ & _ & _ & _ & _ & _ & Hre).
  vm_compute in Hto. injection Hto as <-. vm_compute in Hre. discriminate Hre.
Defined.

(** ** Every run of the first handler *)

Section BasicCases.
Context (c : Collaborators).

Lemma Basic_handler_no_properties req_body log :
  req_body <> JUndefined -> req_body <> JNull ->
  (forall props, req_body <> JObj props) ->
  Basic.handler c req_body log =
    (Normal (res_status_json 400
               (obj [("success", JBool false);
                     ("error", JStr "All fields are required: recipient email, subject, name, and message")])),
     log).
Proof.
  intros H1 H2 H3.
  destruct req_body as [ | | b | z | s | items | props];
    try reflexivity; try congruence.
Qed.

(** [undefined] or [null] as body: the destructuring throws, and no [try]
    block encloses it. *)
Lemma Basic_handler_no_body req_body log :
  req_body = JUndefined \/ req_body = JNull ->
  exists e, Basic.handler c req_body log = (Throw e, log).
Proof. intros [-> | ->]; eexists; reflexivity. Qed.

Lemma Strict_validated_Basic req_body to subject name message phone :
  Strict.validated req_body to subject name message phone ->
  Basic.validated req_body (JStr to) to subject name message.
Proof.
  intros (Hto & Hsubject & Hname & Hmessage & _ & Nto & ? & ? & ? & _ & Hre).
  repeat split; try assumption. apply ToBoolean_JStr, Nto.
Qed.

(** A validated request is answered 200 or 500, never 400. *)
Lemma Basic_validated_not_400 req_body to to_s subject name message log r log' :
  Basic.validated req_body to to_s subject name message ->
  Basic.handler c req_body log = (Normal r, log') ->
  status r <> 400%Z.
Proof.
  intros Hv H.
  destruct (ejs_renderFile c (templatePath c "welcome")
              (Basic.templateData c
                 (String.substring 0 100 subject) (String.substring 0 50 name)
                 (String.substring 0 2000 message))) as [html|e] eqn:R.
  - rewrite (Basic_handler_accepted c _ to to_s subject name message html)
      in H by (split; assumption).
    cbv zeta in H.
    destruct (transporter_sendMail c log _); injection H as <- _; discriminate.
  - rewrite (Basic_handler_render_fails c _ to to_s subject name message e)
      in H by assumption.
    injection H as <- _. discriminate.
Qed.

(** Every run, by its case. *)
Lemma Basic_handler_cases req_body log :
  (exists e, Basic.handler c req_body log = (Throw e, log)) \/
  (exists r error,
      Basic.handler c req_body log = (Normal r, log) /\
      is_failure r 400 error) \/
  (exists to to_s subject name message r,
      Basic.validated req_body to to_s subject name message /\
      Basic.handler c req_body log = (Normal r, log) /\
      is_failure r 500 "Failed to render email template") \/
  (exists to to_s subject name message html r,
      Basic.accepted c req_body to to_s subject name message html /\
      Basic.handler c req_body log =
        (Normal r,
         (log ++ [Basic.notification c to to_s subject name message html])%list) /\
      ((transporter_sendMail c log
          (Basic.notification c to to_s subject name message html) = Normal tt /\
        is_success r) \/
       (transporter_sendMail c log
          (Basic.notification c to to_s subject name message html) <> Normal tt /\
        is_failure r 500 "Failed to send email. Please try again later."))).
Proof.
  destruct req_body as [ | | b | z | s | items | props].
  1,2: left; eexists; reflexivity.
  1,2,3,4: right; left; eexists _, _;
    (split; [apply Basic_handler_no_properties; congruence |]);
    apply is_failure_literal.
  destruct (Basic_rejected_thrown_or_validated c props log)
    as [Hrej | [Hthrow | (to & to_s & subject & name & message & Hv)]].
  { right; left. exact Hrej. }
  { left. exact Hthrow. }
  destruct (ejs_renderFile c (templatePath c "welcome")
              (Basic.templateData c
                 (String.substring 0 100 subject) (String.substring 0 50 name)
                 (String.substring 0 2000 message))) as [html|e] eqn:R.
  2:{ right; right; left. exists to, to_s, subject, name, message.
      eexists. split; [exact Hv |].
      split; [apply (Basic_handler_render_fails c _ to to_s subject name message e);
              assumption |].
      apply is_failure_literal. }
  assert (Hacc : Basic.accepted c (JObj props) to to_s subject name message html)
    by (split; assumption).
  pose proof (Basic_handler_accepted c _ _ _ _ _ _ _ log Hacc) as Hrun.
  cbv zeta in Hrun.
  right; right; right. exists to, to_s, subject, name, message, html.
  destruct (transporter_sendMail c log
              (Basic.notification c to to_s subject name message html))
    as [[]|e] eqn:Hsend; eexists; (split; [exact Hacc |]);
    (split; [exact Hrun |]).
  - left. split; [reflexivity | apply is_success_literal].
  - right. split; [discriminate | apply is_failure_literal].
Qed.

End BasicCases.

(** X7 (outcomes of the first handler).  The first handler hands at most
    one message to the transport.  It either throws before sending
    anything, or answers 400 after no send, 500 after at most one, or 200
    after exactly one. *)
Theorem Basic_sends_at_most_once c req_body log :
  (exists e, Basic.handler c req_body log = (Throw e, log)) \/
  (exists r sends,
      Basic.handler c req_body log = (Normal r, (log ++ sends)%list) /\
      ((is_success r /\ length sends = 1) \/
       (status r = 400%Z /\ get (body r) "success" = JBool false /\ sends = []) \/
       (status r = 500%Z /\ get (body r) "success" = JBool false /\
        length sends <= 1))).
Proof.
  destruct (Basic_handler_cases c req_body log)
    as [Hthrow
       |[(r & error & Hrun & (Hst & Hsu & _))
       |[(to & to_s & subject & name & message & r & _ & Hrun & (Hst & Hsu & _))
       |(to & to_s & subject & name & message & html & r & _ & Hrun
          & [[_ Hok] | [_ (Hst & Hsu & _)]])]]].
  - left. exact Hthrow.
  - right. exists r, []. rewrite app_nil_r. split; [exact Hrun |].
    right; left. auto.
  - right. exists r, []. rewrite app_nil_r. split; [exact Hrun |].
    right; right. simpl. auto.
  - right. eexists r, [_]. split; [exact Hrun |]. left. auto.
  - right. eexists r, [_]. split; [exact Hrun |]. right; right. simpl. auto.
Qed.

(** X8 (hardening only rejects more).  Every request the first handler
    answers with status 400 is answered with status 400 by the hardened
    handler as well, under the same configuration and collaborators, and
    neither sends anything. *)
Theorem Basic_400_implies_Strict_400 c req_body log r log' :
  Basic.handler c req_body log = (Normal r, log') ->
  status r = 400%Z ->
  log' = log /\
  exists r', Strict.handler c req_body log = (Normal r', log) /\
             status r' = 400%Z.
Proof.
  intros H Hst.
  destruct req_body as [ | | b | z | s | items | props].
  1,2: discriminate H.
  1,2,3,4: rewrite Basic_handler_no_properties in H by congruence;
    injection H as _ <-; (split; [reflexivity |]); eexists;
    (split; [apply Strict_handler_no_properties; congruence | reflexivity]).
  destruct (Strict_rejected_or_validated c props log)
    as [(r' & error & Hrun & (Hst' & _))
       | (to & subject & name & message & phone & Hv)].
  - destruct (Basic_handler_cases c (JObj props) log)
      as [[e He]
         |[(r0 & error0 & Hrun0 & _)
         |[(to & to_s & subject & name & message & r0 & Hv & _)
         |(to & to_s & subject & name & message & html & r0 & [Hv _] & _)]]].
    + rewrite He in H. discriminate H.
    + rewrite Hrun0 in H. injection H as _ <-. split; [reflexivity |]. eauto.
    + destruct (Basic_validated_not_400 c _ _ _ _ _ _ _ _ _ Hv H Hst).
    + destruct (Basic_validated_not_400 c _ _ _ _ _ _ _ _ _ Hv H Hst).
  - apply Strict_validated_Basic in Hv.
    destruct (Basic_validated_not_400 c _ _ _ _ _ _ _ _ _ Hv H Hst).
Qed.

Lemma Basic_400_implies_Strict_400_witness :
  ([] : list jsval) = [] /\
  exists r',
    Strict.handler Example.delivering Example.malformed [] = (Normal r', []) /\
    status r' = 400%Z.
Proof.
  apply (Basic_400_implies_Strict_400 Example.delivering Example.malformed []
           (res_status_json 400
              (obj [("success", JBool false);
                    ("error", JStr "Please provide a valid email address")]))).
  - vm_compute. reflexivity.
  - reflexivity.
Defined.

(** ** Rendering failures *)

(** X9 (rendering failure).  When the template renderer throws, whatever
    it throws, a validated request is answered 500 with the fixed text
    "Failed to render email template" and nothing is handed to the
    transport, in both handlers. *)
Theorem render_failure_is_500 c log :
  (forall req_body to subject name message phone e,
     Strict.validated req_body to subject name message phone ->
     ejs_renderFile c (templatePath c "welcome")
       (Strict.adminTemplateData c (JStr to) (JStr phone)
          (String.substring 0 100 subject) (String.substring 0 50 name)
          (String.substring 0 2000 message)) = Throw e ->
     exists r,
       Strict.handler c req_body log = (Normal r, log) /\
       is_failure r 500 "Failed to render email template") /\
  (forall req_body to to_s subject name message e,
     Basic.validated req_body to to_s subject name message ->
     ejs_renderFile c (templatePath c "welcome")
       (Basic.templateData c
          (String.substring 0 100 subject) (String.substring 0 50 name)
          (String.substring 0 2000 message)) = Throw e ->
     exists r,
       Basic.handler c req_body log = (Normal r, log) /\
       is_failure r 500 "Failed to render email template").
Proof.
  split.
  - intros req_body to subject name message phone e Hv Hr.
    eexists. split; [| apply is_failure_literal].
    apply (Strict_handler_render_fails c _ to subject name message phone e);
      assumption.
  - intros req_body to to_s subject name message e Hv Hr.
    eexists. split; [| apply is_failure_literal].
    apply (Basic_handler_render_fails c _ to to_s subject name message e);
      assumption.
Qed.

Lemma render_failure_is_500_witness :
  (exists r,
     Strict.handler Example.failing_render Example.inquiry [] = (Normal r, []) /\
     is_failure r 500 "Failed to render email template") /\
  (exists r,
     Basic.handler Example.failing_render Example.inquiry [] = (Normal r, []) /\
     is_failure r 500 "Failed to render email template").
Proof.
  pose proof (render_failure_is_500 Example.failing_render []) as [HS HB].
  split.
  - apply (HS Example.inquiry "a@b.com" "Hi" "Sam" "Hello there" "123"
             (Error "ENOENT: no such file or directory")).
    + repeat split; try reflexivity; discriminate.
    + reflexivity.
  - apply (HB Example.inquiry (JStr "a@b.com") "a@b.com" "Hi" "Sam"
             "Hello there" (Error "ENOENT: no such file or directory")).
    + repeat split; try reflexivity; discriminate.
    + reflexivity.
Defined.

(** ** Sanitisation *)

Lemma Basic_run_depends_on_prefixes
    c b1 b2 to to_s subject1 name1 message1 subject2 name2 message2 log :
  Basic.validated b1 to to_s subject1 name1 message1 ->
  Basic.validated b2 to to_s subject2 name2 message2 ->
  String.substring 0 100 subject1 = String.substring 0 100 subject2 ->
  String.substring 0 50 name1 = String.substring 0 50 name2 ->
  String.substring 0 2000 message1 = String.substring 0 2000 message2 ->
  Basic.handler c b1 log = Basic.handler c b2 log.
Proof.
  intros V1 V2 Es En Em.
  destruct (ejs_renderFile c (templatePath c "welcome")
              (Basic.templateData c
                 (String.substring 0 100 subject1) (String.substring 0 50 name1)
                 (String.substring 0 2000 message1))) as [html|e] eqn:R.
  - rewrite (Basic_handler_accepted c b1 to to_s subject1 name1 message1 html)
      by (split; assumption).
    rewrite (Basic_handler_accepted c b2 to to_s subject2 name2 message2 html)
      by (split; [assumption | rewrite <- Es, <- En, <- Em; exact R]).
    unfold Basic.notification. rewrite Es, En, Em. reflexivity.
  - rewrite (Basic_handler_render_fails c b1 to to_s subject1 name1 message1 e)
      by assumption.
    rewrite (Basic_handler_render_fails c b2 to to_s subject2 name2 message2 e)
      by (try assumption; rewrite <- Es, <- En, <- Em; exact R).
    reflexivity.
Qed.

(** X10 (what lies beyond the bounds is ignored).  Two validated requests
    with the same [to] (and [phone]) whose subjects agree on the first 100
    characters, names on the first 50 and messages on the first 2000 are
    handled identically: same response, same messages handed to the
    transport, in both handlers. *)
Theorem truncated_tail_is_ignored
    c to subject1 name1 message1 subject2 name2 message2 log :
  String.substring 0 100 subject1 = String.substring 0 100 subject2 ->
  String.substring 0 50 name1 = String.substring 0 50 name2 ->
  String.substring 0 2000 message1 = String.substring 0 2000 message2 ->
  (forall b1 b2 phone,
     Strict.validated b1 to subject1 name1 message1 phone ->
     Strict.validated b2 to subject2 name2 message2 phone ->
     Strict.handler c b1 log = Strict.handler c b2 log) /\
  (forall b1 b2 to' ,
     Basic.validated b1 to' to subject1 name1 message1 ->
     Basic.validated b2 to' to subject2 name2 message2 ->
     Basic.handler c b1 log = Basic.handler c b2 log).
Proof.
  intros Es En Em. split.
  - intros b1 b2 phone V1 V2.
    apply (Strict_run_depends_on_prefixes c b1 b2 to phone
             subject1 name1 message1 subject2 name2 message2); assumption.
  - intros b1 b2 to' V1 V2.
    apply (Basic_run_depends_on_prefixes c b1 b2 to' to
             subject1 name1 message1 subject2 name2 message2); assumption.
Qed.

Lemma truncated_tail_is_ignored_witness :
  Strict.handler Example.delivering Example.long_inquiry [] =
    Strict.handler Example.delivering Example.long_inquiry_other_tail [] /\
  Basic.handler Example.delivering Example.long_inquiry [] =
    Basic.handler Example.delivering Example.long_inquiry_other_tail [].
Proof.
  destruct (truncated_tail_is_ignored Example.delivering "a@b.com"
              Example.long_subject "Sam" "Hello there"
              (String.substring 0 100 Example.long_subject +:+ "another ending")
              "Sam" "Hello there" [])
    as [HS HB]; try reflexivity.
  split.
  - apply (HS _ _ "123"); repeat split; try reflexivity; discriminate.
  - apply (HB _ _ (JStr "a@b.com")); repeat split; try reflexivity; discriminate.
Defined.

(** X11 (values within the bounds pass unchanged).  For an accepted
    request whose subject, name and message have at most 100, 50 and 2000
    characters, the hardened handler hands to the transport messages
    composed from the submitted values themselves. *)
Theorem short_fields_are_sent_whole
    c req_body to subject name message phone html log :
  Strict.accepted c req_body to subject name message phone html ->
  String.length subject <= 100 ->
  String.length name <= 50 ->
  String.length message <= 2000 ->
  let admin :=
    Strict.adminMailOptions c (env_string c "EMAIL_USERNAME") to
      subject name message html in
  let user :=
    Strict.userMailOptions (env_string c "EMAIL_USERNAME") (JStr to)
      subject name (Strict.confirmationHtml name subject) in
  (Strict.handler c req_body log).2 = (log ++ [admin])%list \/
  (Strict.handler c req_body log).2 = (log ++ [admin; user])%list.
Proof.
  intros Hacc Hs Hn Hm admin user.
  pose proof (Strict_sends c req_body to subject name message phone html log Hacc)
    as H.
  unfold Strict.adminNotification, Strict.userConfirmation in H.
  rewrite !(substring_short 100 subject Hs), !(substring_short 50 name Hn),
    !(substring_short 2000 message Hm) in H.
  exact H.
Qed.

Lemma short_fields_are_sent_whole_witness :
  (Strict.handler Example.delivering Example.inquiry []).2 =
    ([] ++ [Strict.adminMailOptions Example.delivering
              (env_string Example.delivering "EMAIL_USERNAME") "a@b.com"
              "Hi" "Sam" "Hello there" "<p>rendered</p>"])%list \/
  (Strict.handler Example.delivering Example.inquiry []).2 =
    ([] ++ [Strict.adminMailOptions Example.delivering
              (env_string Example.delivering "EMAIL_USERNAME") "a@b.com"
              "Hi" "Sam" "Hello there" "<p>rendered</p>";
            Strict.userMailOptions
              (env_string Example.delivering "EMAIL_USERNAME") (JStr "a@b.com")
              "Hi" "Sam" (Strict.confirmationHtml "Sam" "Hi")])%list.
Proof.
  apply (short_fields_are_sent_whole Example.delivering Example.inquiry
           "a@b.com" "Hi" "Sam" "Hello there" "123" "<p>rendered</p>" []).
  - repeat split; try reflexivity; discriminate.
  - simpl. lia.
  - simpl. lia.
  - simpl. lia.
Defined.



(** ** Start-up *)

(** X13 (start-up check).  The start-up check passes exactly when
    [EMAIL_USERNAME], [EMAIL_PASSWORD] and [ADMIN_EMAIL] are all set and
    non-empty.  Once it has passed, every message the hardened handler
    composes is sent from the configured user name, and every admin
    notification goes to the configured, non-empty admin address: neither
    field can hold [undefined]. *)
Theorem startup_fixes_sender_and_recipient c :
  (Strict.startup c = true <->
   forall envVar, In envVar Strict.requiredEnvVars ->
     exists value, env c !! envVar = Some value /\ value <> "") /\
  (Strict.startup c = true ->
   exists username admin,
     env c !! "EMAIL_USERNAME" = Some username /\ username <> "" /\
     env c !! "ADMIN_EMAIL" = Some admin /\ admin <> "" /\
     forall to subject name message html,
       get (Strict.adminNotification c to subject name message html) "to"
         = JStr admin /\
       get (Strict.adminNotification c to subject name message html) "from"
         = JStr (dq +:+ "Lucid Petro Chemical" +:+ dq +:+ " <" +:+ username +:+ ">") /\
       get (Strict.userConfirmation c to subject name) "from"
         = JStr (dq +:+ "Lucid Petro Chemical" +:+ dq +:+ " <" +:+ username +:+ ">")).
Proof.
  assert (Hset : forall envVar,
            ToBoolean (process_env c envVar) = true <->
            exists value, env c !! envVar = Some value /\ value <> "").
  { intros envVar. unfold process_env.
    destruct (env c !! envVar) as [value|]; split.
    - intros H. exists value. split; [reflexivity | apply ToBoolean_JStr_inv, H].
    - intros (v & [= <-] & Hne). apply ToBoolean_JStr, Hne.
    - discriminate.
    - intros (v & H & _). discriminate H. }
  assert (Hiff : Strict.startup c = true <->
            forall envVar, In envVar Strict.requiredEnvVars ->
              exists value, env c !! envVar = Some value /\ value <> "").
  { unfold Strict.startup. rewrite forallb_forall.
    split; intros H envVar Hin; apply Hset, H, Hin. }
  split; [exact Hiff |].
  intros Hstart. rewrite Hiff in Hstart.
  destruct (Hstart "EMAIL_USERNAME") as (username & Hu & Nu); [simpl; auto |].
  destruct (Hstart "ADMIN_EMAIL") as (admin & Ha & Na); [simpl; auto |].
  exists username, admin. repeat (split; [assumption |]).
  intros to subject name message html.
  change (get (Strict.adminNotification c to subject name message html) "to")
    with (process_env c "ADMIN_EMAIL").
  change (get (Strict.adminNotification c to subject name message html) "from")
    with (JStr (dq +:+ "Lucid Petro Chemical" +:+ dq +:+ " <"
                +:+ env_string c "EMAIL_USERNAME" +:+ ">")).
  change (get (Strict.userConfirmation c to subject name) "from")
    with (JStr (dq +:+ "Lucid Petro Chemical" +:+ dq +:+ " <"
                +:+ env_string c "EMAIL_USERNAME" +:+ ">")).
  unfold process_env, env_string. rewrite Ha, Hu. auto.
Qed.

Lemma startup_fixes_sender_and_recipient_witness :
  exists username admin,
    env Example.delivering !! "EMAIL_USERNAME" = Some username /\
    username <> "" /\
    env Example.delivering !! "ADMIN_EMAIL" = Some admin /\ admin <> "" /\
    forall to subject name message html,
      get (Strict.adminNotification Example.delivering
             to subject name message html) "to" = JStr admin /\
      get (Strict.adminNotification Example.delivering
             to subject name message html) "from"
        = JStr (dq +:+ "Lucid Petro Chemical" +:+ dq +:+ " <" +:+ username +:+ ">") /\
      get (Strict.userConfirmation Example.delivering to subject name) "from"
        = JStr (dq +:+ "Lucid Petro Chemical" +:+ dq +:+ " <" +:+ username +:+ ">").
Proof.
  apply (proj2 (startup_fixes_sender_and_recipient Example.delivering)).
  reflexivity.
Defined.

(** ** A non-string address in the first handler *)

(** X14 (an array as [to]).  The first handler converts [to] to a string
    for the address check only: a request whose [to] is an array holding
    one matching address is accepted, and the notification handed to the
    transport carries the array itself as reply-to.  The hardened handler
    answers the same request with status 400 and sends nothing. *)
Theorem Basic_accepts_array_to c props address subject name message html log :
  props !! "to" = Some (JArr [JStr address]) ->
  props !! "subject" = Some (JStr subject) -> subject <> "" ->
  props !! "name" = Some (JStr name) -> name <> "" ->
  props !! "message" = Some (JStr message) -> message <> "" ->
  Regex.test Regex.emailRegex address = true ->
  ejs_renderFile c (templatePath c "welcome")
    (Basic.templateData c
       (String.substring 0 100 subject) (String.substring 0 50 name)
       (String.substring 0 2000 message)) = Normal html ->
  let mail :=
    Basic.notification c (JArr [JStr address]) address subject name message html in
  (Basic.handler c (JObj props) log).2 = (log ++ [mail])%list /\
  get mail "replyTo" = JArr [JStr address] /\
  exists r,
    Strict.handler c (JObj props) log = (Normal r, log) /\ status r = 400%Z.
Proof.
  intros Hto Hs Ns Hn Nn Hm Nm Hre Hr mail.
  split; [| split; [reflexivity |]].
  - apply (Basic_sends c _ (JArr [JStr address]) address subject name message html).
    split; [| exact Hr].
    repeat split; try assumption; apply get_present; assumption.
  - destruct (Strict_non_string_rejected c props "to" (JArr [JStr address]) log)
      as (r & error & Hrun & (Hst & _)); try assumption.
    + simpl. auto.
    + discriminate.
    + exists r. auto.
Qed.

Lemma Basic_accepts_array_to_witness :
  (Basic.handler Example.delivering Example.array_to []).2 =
    ([] ++ [Basic.notification Example.delivering (JArr [JStr "a@b.com"])
              "a@b.com" "Hi" "Sam" "Hello there" "<p>rendered</p>"])%list /\
  get (Basic.notification Example.delivering (JArr [JStr "a@b.com"])
         "a@b.com" "Hi" "Sam" "Hello there" "<p>rendered</p>") "replyTo"
    = JArr [JStr "a@b.com"] /\
  exists r,
    Strict.handler Example.delivering Example.array_to [] = (Normal r, []) /\
    status r = 400%Z.
Proof.
  apply (Basic_accepts_array_to Example.delivering
           (list_to_map [("to", JArr [JStr "a@b.com"]); ("subject", JStr "Hi");
                         ("name", JStr "Sam"); ("message", JStr "Hello there");
                         ("phone", JStr "123")])
           "a@b.com" "Hi" "Sam" "Hello there" "<p>rendered</p>" []);
    try reflexivity; discriminate.
Defined.

(** ** Consequences of the address pattern *)

Section AddressFacts.
Import Regex.

Lemma length_append (a b : string) :
  String.length (a +:+ b) = String.length a + String.length b.
Proof.
  induction a as [|x a IH]; [reflexivity |].
  rewrite append_cons. simpl. rewrite IH. reflexivity.
Qed.

Lemma occurrences_append (x : ascii) (a b : string) :
  occurrences x (a +:+ b) = occurrences x a + occurrences x b.
Proof.
  induction a as [|y a IH]; [reflexivity |].
  rewrite append_cons. simpl. rewrite IH. lia.
Qed.

Lemma all_chars_append (p : ascii -> bool) (a b : string) :
  all_chars p (a +:+ b) = all_chars p a && all_chars p b.
Proof.
  induction a as [|y a IH]; [reflexivity |].
  rewrite append_cons. simpl. rewrite IH, andb_assoc. reflexivity.
Qed.

Lemma not_space_at_part (s : string) :
  all_chars not_space_at s = true ->
  occurrences "@" s = 0 /\ all_chars (fun x => negb (is_space x)) s = true.
Proof.
  induction s as [|x s IH]; simpl; [auto |].
  intros H. apply andb_true_iff in H as [Hx Hs].
  destruct (IH Hs) as [IH1 IH2]. unfold not_space_at in Hx.
  apply negb_true_iff, orb_false_iff in Hx as [Hsp Hat].
  rewrite Hat, Hsp, IH1, IH2. auto.
Qed.

Lemma nonempty_length (s : string) : s <> "" -> 1 <= String.length s.
Proof. destruct s; [congruence | simpl; lia]. Qed.

(** X2 (accepted addresses).  An address accepted by the pattern holds
    exactly one [@] and no white space (so no line break), and has at
    least five characters. *)
Theorem accepted_address_is_well_formed (s : string) :
  test emailRegex s = true ->
  occurrences "@" s = 1 /\
  all_chars (fun x => negb (is_space x)) s = true /\
  5 <= String.length s.
Proof.
  intros H. apply test_Matches in H. unfold emailRegex in H.
  apply Matches_Cat_inv in H as (loc & s1 & -> & Hloc & H).
  apply Matches_Cat_inv in H as (at_ & s2 & -> & Hat & H).
  apply Matches_Cat_inv in H as (domain & s3 & -> & Hdom & H).
  apply Matches_Cat_inv in H as (dot & tld & -> & Hdot & Htld).
  apply Matches_Chr_inv in Hat as ->. apply Matches_Chr_inv in Hdot as ->.
  apply Matches_Plus_Class in Hloc as [Nloc Hloc], Hdom as [Ndom Hdom],
    Htld as [Ntld Htld].
  apply not_space_at_part in Hloc as [Oloc Sloc], Hdom as [Odom Sdom],
    Htld as [Otld Stld].
  apply nonempty_length in Nloc, Ndom, Ntld.
  rewrite !occurrences_append, !all_chars_append, !length_append.
  rewrite Oloc, Odom, Otld, Sloc, Sdom, Stld.
  repeat split; simpl; lia.
Qed.

Lemma accepted_address_is_well_formed_witness :
  occurrences "@" "a@b.com" = 1 /\
  all_chars (fun x => negb (is_space x)) "a@b.com" = true /\
  5 <= String.length "a@b.com".
Proof. apply (accepted_address_is_well_formed "a@b.com"). reflexivity. Defined.

End AddressFacts.

(** ** The error-handling middleware *)

(** X15 (error details).  The error-handling middleware of the hardened
    server gives out the message and the stack of an error only when
    [NODE_ENV] is exactly [development]; otherwise its response is the
    fixed one of the first server, the same for every error.  In
    particular, with [NODE_ENV] unset or empty the details are withheld,
    although the line logged at start reads "Environment: development". *)
Theorem errorHandler_hides_details c :
  (env c !! "NODE_ENV" <> Some "development" ->
   forall err,
     Strict.errorHandler c err =
       res_status_json 500
         (obj [("success", JBool false);
               ("error", JStr "Internal server error")]) /\
     Strict.errorHandler c err = Basic.errorHandler err /\
     get (body (Strict.errorHandler c err)) "stack" = JUndefined) /\
  (env c !! "NODE_ENV" = Some "development" ->
   forall err,
     status (Strict.errorHandler c err) = 500%Z /\
     get (body (Strict.errorHandler c err)) "success" = JBool false /\
     get (body (Strict.errorHandler c err)) "error" = get err "message" /\
     get (body (Strict.errorHandler c err)) "stack" = get err "stack") /\
  (env c !! "NODE_ENV" = None \/ env c !! "NODE_ENV" = Some "" ->
   Strict.environmentLine c = Normal "Environment: development" /\
   env c !! "NODE_ENV" <> Some "development").
Proof.
  assert (Hdev : strict_eq (process_env c "NODE_ENV") (JStr "development") = true
                 <-> env c !! "NODE_ENV" = Some "development").
  { unfold process_env. destruct (env c !! "NODE_ENV") as [mode|]; simpl.
    - rewrite String.eqb_eq. split; congruence.
    - split; discriminate. }
  split; [| split].
  - intros Hne err. unfold Strict.errorHandler.
    assert (E : strict_eq (process_env c "NODE_ENV") (JStr "development") = false).
    { apply not_true_is_false. intros E. apply Hne, Hdev, E. }
    rewrite E. repeat split.
  - intros Heq err. apply Hdev in Heq. unfold Strict.errorHandler.
    rewrite Heq. repeat split.
  - intros H. unfold Strict.environmentLine, process_env.
    destruct H as [H|H]; rewrite H; split; (reflexivity || discriminate).
Qed.

Lemma errorHandler_hides_details_witness :
  (Strict.environmentLine Example.delivering = Normal "Environment: development" /\
   env Example.delivering !! "NODE_ENV" <> Some "development") /\
  Strict.errorHandler Example.delivering
    (obj [("message", JStr "connect ECONNREFUSED");
          ("stack", JStr "Error: connect ECONNREFUSED at TCPConnectWrap")]) =
    res_status_json 500
      (obj [("success", JBool false); ("error", JStr "Internal server error")]).
Proof.
  destruct (errorHandler_hides_details Example.delivering) as (H1 & _ & H3).
  split.
  - apply H3. left. reflexivity.
  - apply H1. vm_compute. discriminate.
Defined.

(** ** Allowed origins *)

Section Origins.

Lemma split_nonempty (sep : ascii) (s : string) : split sep s <> [].
Proof.
  induction s as [|x s IH]; simpl; [discriminate |].
  destruct (Ascii.eqb x sep); [discriminate |].
  destruct (split sep s); discriminate.
Qed.

(** Joining the pieces with the separator gives the string back. *)
Lemma concat_split (sep : ascii) (s : string) :
  String.concat (String sep "") (split sep s) = s.
Proof.
  induction s as [|x s IH]; [reflexivity |].
  simpl. destruct (Ascii.eqb x sep) eqn:E.
  - apply Ascii.eqb_eq in E. subst x.
    pose proof (split_nonempty sep s) as Hne.
    destruct (split sep s) as [|piece rest]; [congruence |].
    change (String.concat (String sep "") ("" :: piece :: rest))
      with ("" +:+ String sep "" +:+ String.concat (String sep "") (piece :: rest)).
    rewrite IH. reflexivity.
  - pose proof (split_nonempty sep s) as Hne.
    destruct (split sep s) as [|piece rest]; [congruence |].
    destruct rest as [|piece' rest].
    + simpl in IH |- *. rewrite IH. reflexivity.
    + change (String.concat (String sep "") (String x piece :: piece' :: rest))
        with (String x piece +:+ String sep ""
              +:+ String.concat (String sep "") (piece' :: rest)).
      change (String.concat (String sep "") (piece :: piece' :: rest))
        with (piece +:+ String sep ""
              +:+ String.concat (String sep "") (piece' :: rest)) in IH.
      rewrite append_cons, IH. reflexivity.
Qed.

Lemma length_split (sep : ascii) (s : string) :
  length (split sep s) = S (Regex.occurrences sep s).
Proof.
  induction s as [|x s IH]; [reflexivity |].
  simpl. destruct (Ascii.eqb x sep); simpl.
  - rewrite IH. reflexivity.
  - pose proof (split_nonempty sep s) as Hne.
    destruct (split sep s) as [|piece rest]; [congruence |]. exact IH.
Qed.

Lemma split_pieces (sep : ascii) (s : string) :
  Forall (fun piece => Regex.occurrences sep piece = 0) (split sep s).
Proof.
  induction s as [|x s IH]; simpl.
  - constructor; [reflexivity | constructor].
  - destruct (Ascii.eqb x sep) eqn:E.
    + constructor; [reflexivity | exact IH].
    + pose proof (split_nonempty sep s) as Hne.
      destruct (split sep s) as [|piece rest]; [congruence |].
      inversion IH as [|? ? Hp Hr]; subst.
      constructor; [| exact Hr]. simpl. rewrite E, Hp. reflexivity.
Qed.

End Origins.

(** X16 (allowed origins).  The [origin] option of CORS is ['*'] exactly
    when [ALLOWED_ORIGINS] is not set.  When it is set, to any value, the
    option is the array of the pieces of the value between its commas:
    one more piece than there are commas, none holding a comma, and
    joined with commas they give the value back.  An empty value thus
    gives one empty origin, not ['*']. *)
Theorem corsOrigin_lists_the_pieces c :
  (env c !! "ALLOWED_ORIGINS" = None -> Strict.corsOrigin c = JStr "*") /\
  (forall value,
     env c !! "ALLOWED_ORIGINS" = Some value ->
     exists origins,
       Strict.corsOrigin c = JArr (map JStr origins) /\
       String.concat "," origins = value /\
       length origins = S (Regex.occurrences "," value) /\
       Forall (fun origin => Regex.occurrences "," origin = 0) origins).
Proof.
  unfold Strict.corsOrigin, process_env. split.
  - intros H. rewrite H. reflexivity.
  - intros value H. rewrite H. exists (split "," value).
    split; [reflexivity |].
    split; [apply concat_split |].
    split; [apply length_split | apply split_pieces].
Qed.

Lemma corsOrigin_lists_the_pieces_witness :
  exists origins,
    Strict.corsOrigin Example.two_origins = JArr (map JStr origins) /\
    String.concat "," origins = "https://a.example,https://b.example" /\
    length origins = S (Regex.occurrences "," "https://a.example,https://b.example") /\
    Forall (fun origin => Regex.occurrences "," origin = 0) origins.
Proof.
  apply (proj2 (corsOrigin_lists_the_pieces Example.two_origins)).
  reflexivity.
Defined.
